(** * packg.import_from_source: module enumeration and import provenance

    A shallow embedding of [src/packg/import_from_source.py].

    Python strings are [string]; [str.split], [str.join], [str.startswith],
    [str.endswith] and [os.path.dirname] (POSIX flavour) are written out as
    structural functions.  The host environment (module resolution, directory
    scan, dynamic import, reflection) is an interface, [Host], that the
    enumerator and the checker are parameterised by. *)

From Stdlib Require Import String Ascii List Bool Arith ZArith Lia.
Import ListNotations.

Local Open Scope string_scope.
Local Open Scope list_scope.

(** ** Python string primitives *)

Module PyStr.

(** [s.startswith(p)] *)
Fixpoint startswith (s p : string) {struct p} : bool :=
  match p with
  | EmptyString => true
  | String a p' =>
      match s with
      | EmptyString => false
      | String b s' => Ascii.eqb a b && startswith s' p'
      end
  end.

(** [s.endswith(suf)]: [suf] is [s] itself or a suffix of the tail of [s]. *)
Fixpoint endswith (s suf : string) {struct s} : bool :=
  String.eqb s suf ||
  match s with
  | EmptyString => false
  | String _ s' => endswith s' suf
  end.

(** [s.split(".")]: never empty, one more component than there are dots. *)
Fixpoint split (s : string) : list string :=
  match s with
  | EmptyString => [EmptyString]
  | String c s' =>
      if Ascii.eqb c "."%char then EmptyString :: split s'
      else match split s' with
           | [] => [String c EmptyString]
           | h :: t => String c h :: t
           end
  end.

(** [".".join(l)] *)
Fixpoint join (l : list string) : string :=
  match l with
  | [] => EmptyString
  | x :: rest =>
      match rest with
      | [] => x
      | _ :: _ => (x ++ "." ++ join rest)%string
      end
  end.

(** The f-string [f"{parent}.{child}"]. *)
Definition dotted (parent child : string) : string :=
  (parent ++ "." ++ child)%string.

(** No ["."] occurs in [s]. *)
Fixpoint dotfree (s : string) : bool :=
  match s with
  | EmptyString => true
  | String c s' => negb (Ascii.eqb c "."%char) && dotfree s'
  end.

(** *** [posixpath.dirname] *)

Definition is_sep (c : ascii) : bool := Ascii.eqb c "/"%char.

Fixpoint has_sep (s : string) : bool :=
  match s with
  | EmptyString => false
  | String c s' => is_sep c || has_sep s'
  end.

Fixpoint all_sep (s : string) : bool :=
  match s with
  | EmptyString => true
  | String c s' => is_sep c && all_sep s'
  end.

(** [p[:p.rfind("/") + 1]] *)
Fixpoint upto_last_sep (p : string) : string :=
  match p with
  | EmptyString => EmptyString
  | String c r =>
      if has_sep r then String c (upto_last_sep r)
      else if is_sep c then String c EmptyString
      else EmptyString
  end.

(** [s.rstrip("/")] *)
Fixpoint rstrip_sep (s : string) : string :=
  match s with
  | EmptyString => EmptyString
  | String c r =>
      match rstrip_sep r with
      | EmptyString => if is_sep c then EmptyString else String c EmptyString
      | String _ _ as r' => String c r'
      end
  end.

Definition dirname (p : string) : string :=
  let head := upto_last_sep p in
  if negb (String.eqb head EmptyString) && negb (all_sep head)
  then rstrip_sep head
  else head.

End PyStr.

Import PyStr.

(** ** ModuleEnumerator: the test-module predicate *)

Definition _is_test_module (module_name : string) : bool :=
  let components := split module_name in
  (2 <=? List.length components)%nat && String.eqb (nth 1 components "") "tests".

(** ** Canonical-path computation of the checker *)

Section CanonicalPath.

(** [self._module], the checker's working module. *)
Variable self_module : string.

(** The guard of the loop's [break]. *)
Definition private_outside (result : list string) (component : string) : bool :=
  startswith component "_" && negb (startswith self_module (join result)).

(** The [for component in module_components] loop; [result] is the list it
    appends to. *)
Fixpoint accumulate (module_components result : list string) : list string :=
  match module_components with
  | [] => result
  | component :: rest =>
      if private_outside result component then result
      else accumulate rest (result ++ [component])
  end.

Definition _get_module_should_import (module_to_import : string) : string :=
  let module_components := split module_to_import in
  join (accumulate module_components []).

(** The number of components the loop appends before it leaves. *)
Fixpoint stop_index (module_components result : list string) : nat :=
  match module_components with
  | [] => 0
  | component :: rest =>
      if private_outside result component then 0
      else S (stop_index rest (result ++ [component]))
  end.

End CanonicalPath.

(** The stopping condition in the words of the specification: component [i]
    starts with an underscore and the working module does not start with the
    dotted join of the [i] components before it. *)
Definition blocked_at (self_module : string) (components : list string)
    (i : nat) : bool :=
  startswith (nth i components "") "_" &&
  negb (startswith self_module (join (firstn i components))).

(** ** Data model *)

(** [importlib.machinery.ModuleSpec], reduced to the field the code reads. *)
Module ModuleSpec.
Record t := { origin : option string }.
End ModuleSpec.

(** [pkgutil.ModuleInfo], reduced to the fields the code reads. *)
Module ModuleInfo.
Record t := { name : string; ispkg : bool }.
End ModuleInfo.

(** [ast.alias] *)
Module alias.
Record t := { name : string; asname : option string }.
End alias.

(** [ast.ImportFrom] *)
Module ImportFrom.
Record t := { module : option string; names : list alias.t; level : Z }.
End ImportFrom.

(** Exceptions that cross the enumerator and the checker.  [OtherException]
    stands for every other class; none of them is caught by
    [except ModuleNotFoundError]. *)
Inductive exn :=
| ValueError (msg : string)
| AssertionError
| ModuleNotFoundError (msg : string)
| AttributeError (msg : string)
| OtherException (cls msg : string).

Definition is_ModuleNotFoundError (e : exn) : bool :=
  match e with
  | ModuleNotFoundError _ => true
  | _ => false
  end.

(** ** Host environment

    The collaborators the code consumes as black boxes:
    [importlib.util.find_spec], [pkgutil.iter_modules],
    [importlib.import_module], [getattr]/[hasattr] ([None] is a missing
    attribute, for any attribute name, ["*"] included), [isinstance(_, type)],
    [callable] and the [__module__] attribute.

    [find_spec] returns a spec, returns [None], or raises: it imports the
    parent of a dotted name and fails when that parent is not an importable
    package.  [import_module] returns the module or raises.  The value of
    [__module__] is a string or [None], as it is for the bound methods of
    built-in objects.  The directory scan, [getattr], [isinstance] and
    [callable] are taken to return.  The answers of the host do not change
    during a traversal or a visit. *)
Class Host := {
  PyObject : Type;
  find_spec : string -> exn + option ModuleSpec.t;
  iter_modules : list string -> list ModuleInfo.t;
  import_module : string -> exn + PyObject;
  getattr : PyObject -> string -> option PyObject;
  isinstance_type : PyObject -> bool;
  callable : PyObject -> bool;
  __module__ : PyObject -> option string
}.

(** ** ModuleEnumerator *)

Definition _is_package (module_spec : ModuleSpec.t) : bool :=
  match ModuleSpec.origin module_spec with
  | Some o => endswith o "__init__.py"
  | None => false
  end.

(** How the run of a generator stands: it ran to its end, or an exception
    closed it, or the recursion went deeper than the depth it was given. *)
Inductive ending :=
| Finished
| Raised (e : exn)
| Deeper.

(** What a generator has produced: the names yielded so far, in order, and
    how the run stands.  A run that is closed by an exception or exhausts its
    recursion depth stops there: the names are then the prefix of the stream
    yielded up to that point. *)
Definition Yielded : Type := list string * ending.

(** [for child in children: <body>] over generators. *)
Fixpoint each_child (body : ModuleInfo.t -> Yielded)
    (children : list ModuleInfo.t) : Yielded :=
  match children with
  | [] => ([], Finished)
  | child :: rest =>
      let (ys, stand) := body child in
      match stand with
      | Finished =>
          let (zs, stand') := each_child body rest in (ys ++ zs, stand')
      | _ => (ys, stand)
      end
  end.

Section Enumerator.
Context {host : Host}.

(** The body of [for child in iter_modules(...)]; [recurse] is the recursive
    call with the flags passed on. *)
Definition visit_child (recurse : string -> Yielded) (module_name : string)
    (packages_only : bool) (child : ModuleInfo.t) : Yielded :=
  if ModuleInfo.ispkg child then
    recurse (dotted module_name (ModuleInfo.name child))
  else if negb packages_only then
    ([dotted module_name (ModuleInfo.name child)], Finished)
  else ([], Finished).

(** [depth] bounds the nesting of the recursive calls. *)
Fixpoint _recurse_modules (depth : nat) (module_name : string)
    (ignore_tests packages_only : bool) {struct depth} : Yielded :=
  match depth with
  | 0 => ([], Deeper)
  | S depth' =>
      if ignore_tests && _is_test_module module_name then ([], Finished)
      else
        match find_spec module_name with
        | inl e => ([], Raised e)
        | inr (Some module_spec) =>
            match ModuleSpec.origin module_spec with
            | Some o =>
                let own :=
                  if negb (packages_only && negb (_is_package module_spec))
                  then [module_name] else [] in
                let (ys, stand) :=
                  each_child
                    (visit_child
                       (fun name =>
                          _recurse_modules depth' name ignore_tests
                            packages_only)
                       module_name packages_only)
                    (iter_modules [dirname o]) in
                (own ++ ys, stand)
            | None => ([], Finished)
            end
        | inr None => ([], Finished)
        end
  end.


(** A package-to-package path: from [root], step from a module with a
    source origin to a child that the directory scan flags as a package. *)
Inductive package_path (root : string) : string -> Prop :=
| path_root : package_path root root
| path_child (parent : string) (module_spec : ModuleSpec.t) (o : string)
    (child : ModuleInfo.t) :
    package_path root parent ->
    find_spec parent = inr (Some module_spec) ->
    ModuleSpec.origin module_spec = Some o ->
    In child (iter_modules [dirname o]) ->
    ModuleInfo.ispkg child = true ->
    package_path root (dotted parent (ModuleInfo.name child)).

(** The traversal has nothing to enter: the test filter stops it, or the
    module has no spec, or its spec has no origin. *)
Definition nothing_to_enter (module_name : string) (ignore_tests : bool)
    : Prop :=
  ignore_tests && _is_test_module module_name = true \/
  find_spec module_name = inr None \/
  exists module_spec,
    find_spec module_name = inr (Some module_spec) /\
    ModuleSpec.origin module_spec = None.


End Enumerator.

(** ** ImportProvenanceChecker *)

(** What a visit leaves behind: text written by [print], records handed to
    [logging.warning], and the calls made to [import_module], in order. *)
Inductive event :=
| Printed (text : string)
| Warned (text : string)
| Imported (module_name : string).

(** A computation that appends to the log and ends with a value or with a
    raised exception. *)
Definition M (A : Type) : Type := list event -> (exn + A) * list event.

Definition ret {A : Type} (a : A) : M A := fun log => (inr a, log).

Definition raise {A : Type} (e : exn) : M A := fun log => (inl e, log).

Definition bind {A B : Type} (c : M A) (k : A -> M B) : M B :=
  fun log =>
    match c log with
    | (inl e, log') => (inl e, log')
    | (inr a, log') => k a log'
    end.

Definition emit (ev : event) : M unit := fun log => (inr tt, log ++ [ev]).

(** [try: body / except ModuleNotFoundError as e: handler e] *)
Definition try_except_ModuleNotFoundError {A : Type} (body : M A)
    (handler : exn -> M A) : M A :=
  fun log =>
    match body log with
    | (inl e, log') =>
        if is_ModuleNotFoundError e then handler e log' else (inl e, log')
    | (inr a, log') => (inr a, log')
    end.

Declare Scope checker_scope.
Delimit Scope checker_scope with checker.
Notation "x <- c ;; k" := (bind c (fun x => k))
  (at level 61, c at next level, right associativity) : checker_scope.
Notation "c ;; k" := (bind c (fun _ => k))
  (at level 61, right associativity) : checker_scope.

(** [for x in l: body x] *)
Fixpoint for_each {A : Type} (l : list A) (body : A -> M unit) : M unit :=
  match l with
  | [] => ret tt
  | x :: rest => bind (body x) (fun _ => for_each rest body)
  end.

Definition outcome {A : Type} (r : (exn + A) * list event) : exn + A := fst r.
Definition log_of {A : Type} (r : (exn + A) * list event) : list event := snd r.

(** The log holds no record of [logging.warning]. *)
Definition no_warning (log : list event) : bool :=
  forallb (fun ev => match ev with Warned _ => false | _ => true end) log.

Record Checker := {
  _module : string;
  _top_level_module : string;
  _module_list_to_ignore_not_found : option (list string)
}.

Definition parent_import_message (self_module : string) : string :=
  ("Import in " ++ self_module ++
   " attempts to import from parent module using relative import. Please " ++
   "switch to absolute import instead.")%string.

Definition provenance_message (alias_name module_to_import
    should_import_from : string) : string :=
  ("(Potential false positive) " ++
   "Imported " ++ alias_name ++ " from " ++ module_to_import ++ ", " ++
   "which is not the public module where this object " ++
   "is defined. Please import from " ++ should_import_from ++ " instead.")%string.

(** The log after the statement has passed the scope filter and
    [import_module] has been called. *)
Definition after_import (module_to_import : string) (log : list event)
    : list event :=
  log ++ [Printed ("    Importing module: " ++ module_to_import)%string;
          Imported module_to_import].

Section Checker.
Context {host : Host}.
Local Open Scope checker_scope.

(** [_ImportFromSourceChecker.__init__]: the checker it builds, or the
    exception of [find_spec]. *)
Definition ImportFromSourceChecker (module : string)
    (module_list_to_ignore_not_found : option (list string))
    : exn + Checker :=
  match find_spec module with
  | inl e => inl e
  | inr module_spec =>
      let is_pkg :=
        match module_spec with
        | Some s =>
            match ModuleSpec.origin s with
            | Some o => endswith o "__init__.py"
            | None => false
            end
        | None => false
        end in
      let self_module :=
        if is_pkg then module else join (removelast (split module)) in
      inr {| _module := self_module;
             _top_level_module := hd "" (split self_module);
             _module_list_to_ignore_not_found :=
               module_list_to_ignore_not_found |}
  end.

(** A call of [import_module], recorded in the log. *)
Definition import_module_call (module_name : string) : M PyObject :=
  fun log => (import_module module_name, log ++ [Imported module_name]).

(** The three cases of "which module to import", for a level below 2. *)
Definition resolve_module_to_import (self : Checker) (node : ImportFrom.t)
    : M string :=
  if (ImportFrom.level node =? 0)%Z then
    match ImportFrom.module node with
    | Some m => ret m
    | None => raise AssertionError
    end
  else
    match ImportFrom.module node with
    | None => ret (_module self)
    | Some m => ret (dotted (_module self) m)
    end.

(** What [None.split(".")] raises in [_get_module_should_import]. *)
Definition none_has_no_split : exn :=
  AttributeError "'NoneType' object has no attribute 'split'".

(** The body of [for alias in node.names]; [continue] is an early [ret tt].
    A class or callable whose [__module__] is [None] reaches
    [_get_module_should_import] with [None]. *)
Definition visit_alias (self : Checker) (module_to_import : string)
    (module : PyObject) (a : alias.t) : M unit :=
  attr <- match getattr module (alias.name a) with
          | None =>
              if String.eqb (alias.name a) "*" then ret None
              else
                m <- import_module_call (dotted module_to_import (alias.name a)) ;;
                ret (Some m)
          | Some v => ret (Some v)
          end ;;
  match attr with
  | None => ret tt
  | Some attr =>
      if isinstance_type attr || callable attr then
        match __module__ attr with
        | Some attribute_module =>
            let should_import_from :=
              _get_module_should_import (_module self) attribute_module in
            if negb (String.eqb module_to_import should_import_from) then
              emit (Warned (provenance_message (alias.name a)
                              module_to_import should_import_from))
            else ret tt
        | None => raise none_has_no_split
        end
      else ret tt
  end.

(** The [except ModuleNotFoundError] handler: [None] is the early [return]. *)
Definition ignore_not_found (self : Checker) (module_to_import : string)
    (e : exn) : M (option PyObject) :=
  match _module_list_to_ignore_not_found self with
  | Some l =>
      if existsb (fun module_to_ignore_not_found =>
                    startswith module_to_import module_to_ignore_not_found) l
      then
        emit (Printed ("        Ignore missing module: " ++ module_to_import)%string) ;;
        ret None
      else raise e
  | None => raise e
  end.

Definition visit_ImportFrom (self : Checker) (node : ImportFrom.t) : M unit :=
  if (ImportFrom.level node >=? 2)%Z then
    raise (ValueError (parent_import_message (_module self)))
  else
    module_to_import <- resolve_module_to_import self node ;;
    if negb (startswith module_to_import (_top_level_module self)) then ret tt
    else
      emit (Printed ("    Importing module: " ++ module_to_import)%string) ;;
      loaded <- try_except_ModuleNotFoundError
                  (m <- import_module_call module_to_import ;; ret (Some m))
                  (ignore_not_found self module_to_import) ;;
      match loaded with
      | None => ret tt
      | Some module =>
          for_each (ImportFrom.names node)
            (visit_alias self module_to_import module)
      end.

End Checker.

(** ** A concrete host

    A small installation under [/site]: the package [pkg] with a plain module
    [tests] next to the sub-package [b]; the package [lib] with a test package
    and a nested package behind a plain sibling; a foreign package [pkgextra]
    that shares only its first characters with [pkg]. *)

Module Site.

Inductive Obj :=
| Module_ (name : string)
| Class_ (defined_in : string)
| Function_ (defined_in : string)
| BoundMethod
| Constant.

(** Dotted name to origin file. *)
Definition origins : list (string * string) :=
  [ ("pkg", "/site/pkg/__init__.py");
    ("pkg.a", "/site/pkg/a.py");
    ("pkg.tests", "/site/pkg/tests.py");
    ("pkg.lazy", "/site/pkg/lazy.py");
    ("pkg.b", "/site/pkg/b/__init__.py");
    ("pkg.b._c", "/site/pkg/b/_c.py");
    ("pkg.b.x", "/site/pkg/b/x.py");
    ("lib", "/site/lib/__init__.py");
    ("lib.base", "/site/lib/base.py");
    ("lib.util", "/site/lib/util.py");
    ("lib.tests", "/site/lib/tests/__init__.py");
    ("lib.tests.test_core", "/site/lib/tests/test_core.py");
    ("lib.core", "/site/lib/core/__init__.py");
    ("lib.core.api", "/site/lib/core/api.py");
    ("lib.core.helpers", "/site/lib/core/helpers.py");
    ("lib.core.deep", "/site/lib/core/deep/__init__.py");
    ("solo", "/site/solo.py");
    ("pkgextra", "/site/pkgextra/__init__.py");
    ("pkgextra.mod", "/site/pkgextra/mod.py") ].

(** Directory to the modules the scan finds in it, in the order of the
    sorted file names. *)
Definition directories : list (string * list ModuleInfo.t) :=
  [ ("/site/pkg",
     [ {| ModuleInfo.name := "a"; ModuleInfo.ispkg := false |};
       {| ModuleInfo.name := "b"; ModuleInfo.ispkg := true |};
       {| ModuleInfo.name := "lazy"; ModuleInfo.ispkg := false |};
       {| ModuleInfo.name := "tests"; ModuleInfo.ispkg := false |} ]);
    ("/site/pkg/b",
     [ {| ModuleInfo.name := "_c"; ModuleInfo.ispkg := false |};
       {| ModuleInfo.name := "x"; ModuleInfo.ispkg := false |} ]);
    ("/site/lib",
     [ {| ModuleInfo.name := "base"; ModuleInfo.ispkg := false |};
       {| ModuleInfo.name := "core"; ModuleInfo.ispkg := true |};
       {| ModuleInfo.name := "tests"; ModuleInfo.ispkg := true |};
       {| ModuleInfo.name := "util"; ModuleInfo.ispkg := false |} ]);
    ("/site/lib/tests",
     [ {| ModuleInfo.name := "test_core"; ModuleInfo.ispkg := false |} ]);
    ("/site/lib/core",
     [ {| ModuleInfo.name := "api"; ModuleInfo.ispkg := false |};
       {| ModuleInfo.name := "deep"; ModuleInfo.ispkg := true |};
       {| ModuleInfo.name := "helpers"; ModuleInfo.ispkg := false |} ]);
    ("/site/lib/core/deep", []);
    ("/site/pkgextra",
     [ {| ModuleInfo.name := "mod"; ModuleInfo.ispkg := false |} ]) ].

(** Module, attribute name, attribute value.  [pkg.a] binds [joiner] to the
    [join] method of a string: a callable whose [__module__] is [None]. *)
Definition attributes : list (string * string * Obj) :=
  [ ("pkg.b._c", "Klass", Class_ "pkg.b._c");
    ("pkg.b", "Klass", Class_ "pkg.b._c");
    ("pkg.a", "helper", Function_ "pkg.a");
    ("pkg.a", "VERSION", Constant);
    ("pkg.a", "joiner", BoundMethod);
    ("pkg.b.x", "Widget", Class_ "pkg.b.x");
    ("pkg.lazy", "*", Function_ "pkg.a");
    ("pkgextra.mod", "tool", Function_ "pkgextra.mod") ].

Fixpoint lookup {A : Type} (key : string) (table : list (string * A))
    : option A :=
  match table with
  | [] => None
  | (k, v) :: rest => if String.eqb k key then Some v else lookup key rest
  end.

Definition is_site_package (module_name : string) : bool :=
  match lookup module_name origins with
  | Some o => endswith o "__init__.py"
  | None => false
  end.

(** Why importing the dotted name made of [parent] and [components] fails,
    if it does: the first component that is missing, or that lies below a
    module that is not a package. *)
Fixpoint import_failure (parent : option string) (components : list string)
    : option exn :=
  match components with
  | [] => None
  | c :: rest =>
      let here := match parent with
                  | None => c
                  | Some p => dotted p c
                  end in
      match parent with
      | Some p =>
          if negb (is_site_package p) then
            Some (ModuleNotFoundError
                    ("No module named '" ++ here ++ "'; '" ++ p ++
                     "' is not a package")%string)
          else
            match lookup here origins with
            | Some _ => import_failure (Some here) rest
            | None =>
                Some (ModuleNotFoundError
                        ("No module named '" ++ here ++ "'")%string)
            end
      | None =>
          match lookup here origins with
          | Some _ => import_failure (Some here) rest
          | None =>
              Some (ModuleNotFoundError
                      ("No module named '" ++ here ++ "'")%string)
          end
      end
  end.

(** [find_spec] imports the parent of a dotted name and reads its
    [__path__]. *)
Definition site_find_spec (module_name : string)
    : exn + option ModuleSpec.t :=
  let found :=
    match lookup module_name origins with
    | Some o => Some {| ModuleSpec.origin := Some o |}
    | None => None
    end in
  if dotfree module_name then inr found
  else
    let parent := join (removelast (split module_name)) in
    match import_failure None (split parent) with
    | Some e => inl e
    | None =>
        if is_site_package parent then inr found
        else
          inl (ModuleNotFoundError
                 ("__path__ attribute not found on '" ++ parent ++
                  "' while trying to find '" ++ module_name ++ "'")%string)
    end.

Definition site_iter_modules (paths : list string) : list ModuleInfo.t :=
  flat_map (fun p => match lookup p directories with
                     | Some l => l
                     | None => []
                     end) paths.

Definition site_import_module (module_name : string) : exn + Obj :=
  if String.eqb module_name "" then inl (ValueError "Empty module name")
  else if startswith module_name "." then
    inl (OtherException "TypeError"
           ("the 'package' argument is required to perform a relative " ++
            "import for '" ++ module_name ++ "'")%string)
  else
    match import_failure None (split module_name) with
    | Some e => inl e
    | None => inr (Module_ module_name)
    end.

Definition site_getattr (o : Obj) (attribute : string) : option Obj :=
  match o with
  | Module_ m =>
      lookup attribute
        (flat_map (fun '(m', a, v) =>
                     if String.eqb m' m then [(a, v)] else []) attributes)
  | _ => None
  end.

Definition site_isinstance_type (o : Obj) : bool :=
  match o with
  | Class_ _ => true
  | _ => false
  end.

Definition site_callable (o : Obj) : bool :=
  match o with
  | Class_ _ | Function_ _ | BoundMethod => true
  | _ => false
  end.

Definition site___module__ (o : Obj) : option string :=
  match o with
  | Class_ d | Function_ d => Some d
  | _ => None
  end.

#[export] Instance host : Host := {|
  PyObject := Obj;
  find_spec := site_find_spec;
  iter_modules := site_iter_modules;
  import_module := site_import_module;
  getattr := site_getattr;
  isinstance_type := site_isinstance_type;
  callable := site_callable;
  __module__ := site___module__
|}.

Definition import_from (level : Z) (module : option string)
    (names : list string) : ImportFrom.t :=
  {| ImportFrom.module := module;
     ImportFrom.names :=
       map (fun n => {| alias.name := n; alias.asname := None |}) names;
     ImportFrom.level := level |}.

(** The checkers that the constructor builds for the plain modules directly
    in [pkg], for those in [pkg.b], and for the single-file module [solo]. *)
Definition in_pkg (ignore : option (list string)) : Checker :=
  {| _module := "pkg"; _top_level_module := "pkg";
     _module_list_to_ignore_not_found := ignore |}.

Definition in_pkg_b (ignore : option (list string)) : Checker :=
  {| _module := "pkg.b"; _top_level_module := "pkg";
     _module_list_to_ignore_not_found := ignore |}.

Definition of_solo (ignore : option (list string)) : Checker :=
  {| _module := ""; _top_level_module := "";
     _module_list_to_ignore_not_found := ignore |}.

End Site.

(** ** VisitorRunner *)

Section Runner.
Context {host : Host}.

(** [open(origin).read()] followed by [ast.parse]: the [ImportFrom] nodes of
    the tree of the file at [origin], in the order in which
    [NodeVisitor.visit] reaches them, or the exception of reading or
    parsing. *)
Variable parse_imports : string -> exn + list ImportFrom.t.

(** [visitor] is the [visit_ImportFrom] method of the visitor object; the
    traversal calls it on the nodes in turn and ends at the first exception. *)
Definition _apply_visitor (module : string) (visitor : ImportFrom.t -> M unit)
    : M unit :=
  match find_spec module with
  | inl e => raise e
  | inr None => raise AssertionError
  | inr (Some module_spec) =>
      match ModuleSpec.origin module_spec with
      | None => raise AssertionError
      | Some o =>
          match parse_imports o with
          | inl e => raise e
          | inr nodes => for_each nodes visitor
          end
      end
  end.

End Runner.

(** ** Counting in the log *)

Definition count_imports (log : list event) : nat :=
  List.length
    (filter (fun ev => match ev with Imported _ => true | _ => false end) log).

Definition count_warnings (log : list event) : nat :=
  List.length
    (filter (fun ev => match ev with Warned _ => true | _ => false end) log).

(** ** Sources on the concrete host *)

Module SiteSources.

(** [/site/pkg/a.py] imports with a relative level of 1, then from a
    grandparent; [/site/pkg/b/x.py] has no import statement. *)
Definition site_parse_imports (o : string) : exn + list ImportFrom.t :=
  if String.eqb o "/site/pkg/a.py" then
    inr [ Site.import_from 1 (Some "b"%string) ["Klass"%string];
          Site.import_from 2 (Some "other"%string) ["thing"%string];
          Site.import_from 0 (Some "pkg.lazy"%string) ["*"%string] ]
  else if String.eqb o "/site/pkg/b/x.py" then inr []
  else inl (OtherException "FileNotFoundError" o).

End SiteSources.

(** ** A host with a module that fails while it is loaded *)

Module SiteBroken.

(** [pkg.broken] exists, and importing it raises an [ImportError]. *)
Definition broken_import_module (module_name : string) : exn + Site.Obj :=
  if String.eqb module_name "pkg.broken" then
    inl (OtherException "ImportError" "cannot import name 'helper'")
  else Site.site_import_module module_name.

Definition host : Host := {|
  PyObject := Site.Obj;
  find_spec := Site.site_find_spec;
  iter_modules := Site.site_iter_modules;
  import_module := broken_import_module;
  getattr := Site.site_getattr;
  isinstance_type := Site.site_isinstance_type;
  callable := Site.site_callable;
  __module__ := Site.site___module__
|}.

End SiteBroken.

(** * Properties *)

(** ** The primitives on small inputs *)

Example split_dotted_name :
  split "pkg.impl._klass" = ["pkg"; "impl"; "_klass"]%string.
Proof. reflexivity. Qed.

Example split_of_empty : split "" = [""%string].
Proof. reflexivity. Qed.

Example join_of_nothing : join [] = ""%string.
Proof. reflexivity. Qed.

Example dirname_of_init : dirname "/site/pkg/__init__.py" = "/site/pkg"%string.
Proof. reflexivity. Qed.

Example dirname_keeps_leading_slashes : dirname "//x" = "//"%string.
Proof. reflexivity. Qed.

Example endswith_init : endswith "/site/pkg/__init__.py" "__init__.py" = true.
Proof. reflexivity. Qed.

Example tests_package_is_test_module : _is_test_module "pkg.tests.unit" = true.
Proof. reflexivity. Qed.

Example root_named_tests_is_not : _is_test_module "tests" = false.
Proof. reflexivity. Qed.

Example private_module_from_outside :
  _get_module_should_import "pkg.a" "pkg.b._c" = "pkg.b"%string.
Proof. reflexivity. Qed.

Example private_module_from_inside :
  _get_module_should_import "pkg.b.x" "pkg.b._c" = "pkg.b._c"%string.
Proof. reflexivity. Qed.

(** ** Strings *)

Section StringFacts.

Lemma startswith_empty (s : string) : startswith s "" = true.
Proof. reflexivity. Qed.

Lemma startswith_refl (s : string) : startswith s s = true.
Proof.
  induction s as [|c s IH]; simpl; [reflexivity|].
  now rewrite Ascii.eqb_refl.
Qed.

Lemma startswith_app (p rest : string) :
  startswith (p ++ rest)%string p = true.
Proof.
  induction p as [|c p IH]; simpl; [reflexivity|].
  now rewrite Ascii.eqb_refl.
Qed.

Lemma split_not_nil (s : string) : split s <> [].
Proof.
  induction s as [|c s IH]; simpl; [discriminate|].
  destruct (Ascii.eqb c "."); [discriminate|].
  destruct (split s); discriminate.
Qed.

Lemma split_dotfree (s : string) : dotfree s = true -> split s = [s].
Proof.
  induction s as [|c s IH]; simpl; intros H; [reflexivity|].
  apply andb_prop in H as [Hc Hs].
  apply negb_true_iff in Hc. rewrite Hc, (IH Hs). reflexivity.
Qed.

Lemma split_components_dotfree (s : string) :
  Forall (fun c => dotfree c = true) (split s).
Proof.
  induction s as [|c s IH]; simpl.
  - repeat constructor.
  - destruct (Ascii.eqb c ".") eqn:E.
    + constructor; [reflexivity|exact IH].
    + destruct (split s) as [|h t].
      * constructor; [simpl; now rewrite E|constructor].
      * inversion IH; subst. constructor; [simpl; now rewrite E|assumption].
Qed.

Lemma split_String_dotfree (c : ascii) (s : string) :
  Ascii.eqb c "." = false ->
  split (String c s) = String c (hd "" (split s)) :: tl (split s).
Proof.
  intros E. simpl. rewrite E.
  destruct (split s) eqn:Es; [now destruct (split_not_nil s)|reflexivity].
Qed.

Lemma split_String_dot (c : ascii) (s : string) :
  Ascii.eqb c "." = true -> split (String c s) = "" :: split s.
Proof. intros E. simpl. now rewrite E. Qed.

Lemma split_dotfree_app_dot (x rest : string) :
  dotfree x = true ->
  split (x ++ "." ++ rest)%string = x :: split rest.
Proof.
  induction x as [|c x IH]; intros H; [reflexivity|].
  simpl in H. apply andb_prop in H as [Hc Hx].
  apply negb_true_iff in Hc.
  change (String c x ++ "." ++ rest)%string
    with (String c (x ++ "." ++ rest))%string.
  rewrite split_String_dotfree by assumption.
  now rewrite (IH Hx).
Qed.

Lemma split_join (l : list string) :
  l <> [] -> Forall (fun c => dotfree c = true) l -> split (join l) = l.
Proof.
  induction l as [|x rest IH]; intros Hne Hall; [congruence|].
  inversion Hall as [|? ? Hx Hrest]; subst.
  destruct rest as [|y rest'].
  - simpl. now apply split_dotfree.
  - change (join (x :: y :: rest'))
      with (x ++ "." ++ join (y :: rest'))%string.
    rewrite (split_dotfree_app_dot x (join (y :: rest')) Hx).
    f_equal. apply IH; [discriminate|assumption].
Qed.

Lemma split_dotted (parent child : string) :
  split (dotted parent child) = split parent ++ split child.
Proof.
  unfold dotted.
  induction parent as [|c p IH]; [reflexivity|].
  change (String c p ++ "." ++ child)%string
    with (String c (p ++ "." ++ child))%string.
  destruct (Ascii.eqb c ".") eqn:E.
  - rewrite !split_String_dot by assumption. rewrite IH. reflexivity.
  - rewrite !split_String_dotfree by assumption. rewrite IH.
    destruct (split p) eqn:Ep; [now destruct (split_not_nil p)|].
    reflexivity.
Qed.

End StringFacts.

(** ** The canonical path *)

Section CanonicalPathFacts.
Variable self_module : string.

Lemma accumulate_stop (components result : list string) :
  accumulate self_module components result =
  result ++ firstn (stop_index self_module components result) components.
Proof.
  revert result.
  induction components as [|c rest IH]; intros result; simpl.
  - now rewrite app_nil_r.
  - destruct (private_outside self_module result c).
    + now rewrite app_nil_r.
    + rewrite IH, <- app_assoc. reflexivity.
Qed.

Lemma stop_index_spec (components result : list string) :
  let i := stop_index self_module components result in
  i <= List.length components /\
  (forall j, j < i ->
     private_outside self_module (result ++ firstn j components)
       (nth j components "") = false) /\
  (i < List.length components ->
     private_outside self_module (result ++ firstn i components)
       (nth i components "") = true).
Proof.
  revert result.
  induction components as [|c rest IH]; intros result; simpl.
  - repeat split; intros; lia.
  - destruct (private_outside self_module result c) eqn:E.
    + repeat split; intros; [lia|lia|].
      simpl. now rewrite app_nil_r.
    + destruct (IH (result ++ [c])) as (Hle & Hbefore & Hat).
      repeat split.
      * lia.
      * intros [|j] Hj; simpl.
        -- now rewrite app_nil_r.
        -- specialize (Hbefore j ltac:(lia)).
           now rewrite <- app_assoc in Hbefore.
      * intros Hlt. simpl.
        specialize (Hat ltac:(lia)).
        now rewrite <- app_assoc in Hat.
Qed.

Lemma accumulate_prefix_fixed (components result : list string) :
  accumulate self_module
    (firstn (stop_index self_module components result) components) result =
  result ++ firstn (stop_index self_module components result) components.
Proof.
  revert result.
  induction components as [|c rest IH]; intros result; simpl.
  - now rewrite app_nil_r.
  - destruct (private_outside self_module result c) eqn:E; simpl.
    + now rewrite app_nil_r.
    + rewrite E, IH, <- app_assoc. reflexivity.
Qed.

Lemma should_import_idempotent (module_to_import : string) :
  _get_module_should_import self_module
    (_get_module_should_import self_module module_to_import) =
  _get_module_should_import self_module module_to_import.
Proof.
  unfold _get_module_should_import.
  set (components := split module_to_import).
  rewrite (accumulate_stop components []). simpl.
  set (i := stop_index self_module components []).
  destruct (firstn i components) as [|x rest] eqn:Ekept.
  - reflexivity.
  - rewrite split_join.
    + rewrite <- Ekept. subst i.
      now rewrite accumulate_prefix_fixed.
    + discriminate.
    + rewrite <- Ekept. apply Forall_forall. intros c Hc.
      pose proof (split_components_dotfree module_to_import) as Hall.
      rewrite Forall_forall in Hall. apply Hall.
      fold components. rewrite <- (firstn_skipn i components).
      apply in_or_app. now left.
Qed.

End CanonicalPathFacts.

(** C2: the canonical path is the dotted join of the first [i] components of
    the defining module, where [i] is the first index at which the component
    starts with an underscore while the working module does not start with
    the join of the components before it (all components if there is no such
    index). *)
Theorem should_import_stops_before_first_private
    (self_module module_to_import : string) :
  exists i,
    i <= List.length (split module_to_import) /\
    _get_module_should_import self_module module_to_import =
      join (firstn i (split module_to_import)) /\
    (forall j, j < i ->
       blocked_at self_module (split module_to_import) j = false) /\
    (i < List.length (split module_to_import) ->
       blocked_at self_module (split module_to_import) i = true).
Proof.
  exists (stop_index self_module (split module_to_import) []).
  destruct (stop_index_spec self_module (split module_to_import) [])
    as (Hle & Hbefore & Hat).
  unfold _get_module_should_import, blocked_at.
  rewrite accumulate_stop. simpl in *.
  repeat split; assumption.
Qed.

(** ** The checker *)

Section CheckerFacts.
Context {host : Host}.

Lemma level_below_2 (node : ImportFrom.t) :
  (ImportFrom.level node < 2)%Z -> (ImportFrom.level node >=? 2)%Z = false.
Proof. intros H. rewrite Z.geb_leb. apply Z.leb_gt. exact H. Qed.

(** Past the level check and the scope filter, a visit is the call of
    [import_module] followed by the handler or by the loop over the aliases. *)
Lemma visit_in_scope (self : Checker) (node : ImportFrom.t) (m : string)
    (log : list event) :
  (ImportFrom.level node < 2)%Z ->
  resolve_module_to_import self node log = (inr m, log) ->
  startswith m (_top_level_module self) = true ->
  visit_ImportFrom self node log =
  match import_module m with
  | inl e =>
      if is_ModuleNotFoundError e
      then bind (ignore_not_found self m e) (fun _ => ret tt)
             (after_import m log)
      else (inl e, after_import m log)
  | inr module =>
      for_each (ImportFrom.names node) (visit_alias self m module)
        (after_import m log)
  end.
Proof.
  intros Hlevel Hresolve Hscope.
  unfold visit_ImportFrom. rewrite (level_below_2 node Hlevel).
  unfold bind at 1. rewrite Hresolve, Hscope.
  change (negb true) with false. cbv iota.
  unfold bind, emit, try_except_ModuleNotFoundError, import_module_call,
    after_import, ret.
  rewrite <- app_assoc. simpl app.
  destruct (import_module m) as [e|module].
  - destruct (is_ModuleNotFoundError e); [|reflexivity].
    unfold ignore_not_found, bind, emit, ret, raise.
    destruct (_module_list_to_ignore_not_found self) as [l|]; [|reflexivity].
    destruct (existsb _ l); reflexivity.
  - reflexivity.
Qed.

(** The handler either skips the statement or raises what it was given. *)
Lemma ignore_not_found_cases (self : Checker) (m : string) (e : exn)
    (log : list event) :
  (exists l entry,
      _module_list_to_ignore_not_found self = Some l /\
      In entry l /\ startswith m entry = true) /\
    ignore_not_found self m e log =
      (inr None, log ++ [Printed ("        Ignore missing module: " ++ m)%string])
  \/
  ~ (exists l entry,
      _module_list_to_ignore_not_found self = Some l /\
      In entry l /\ startswith m entry = true) /\
    ignore_not_found self m e log = (inl e, log).
Proof.
  unfold ignore_not_found.
  destruct (_module_list_to_ignore_not_found self) as [l|] eqn:El.
  - destruct (existsb (fun x => startswith m x) l) eqn:Ex.
    + left. split; [|reflexivity].
      apply existsb_exists in Ex as (entry & Hin & Hpre).
      now exists l, entry.
    + right. split; [|reflexivity].
      intros (l' & entry & Heq & Hin & Hpre).
      injection Heq as <-.
      assert (existsb (fun x => startswith m x) l = true) as Habs
        by (apply existsb_exists; now exists entry).
      congruence.
  - right. split; [|reflexivity].
    intros (l' & entry & Heq & _). discriminate.
Qed.

(** One alias: the loop goes on with at most a recorded nested import and a
    warning added to the log; or the nested import failed and its exception
    leaves the loop; or the alias stands for a class or callable whose
    [__module__] is [None], and the [AttributeError] leaves the loop. *)
Lemma visit_alias_cases (self : Checker) (m : string) (module : PyObject)
    (a : alias.t) (log : list event) :
  (exists ext, visit_alias self m module a log = (inr tt, log ++ ext))
  \/
  (getattr module (alias.name a) = None /\
   String.eqb (alias.name a) "*" = false /\
   exists e,
     import_module (dotted m (alias.name a)) = inl e /\
     visit_alias self m module a log =
       (inl e, log ++ [Imported (dotted m (alias.name a))]))
  \/
  (exists attr ext,
     isinstance_type attr || callable attr = true /\
     __module__ attr = None /\
     visit_alias self m module a log = (inl none_has_no_split, log ++ ext)).
Proof.
  unfold visit_alias, bind.
  destruct (getattr module (alias.name a)) as [v|] eqn:Eattr.
  - simpl.
    destruct (isinstance_type v || callable v) eqn:Ekind.
    + destruct (__module__ v) as [d|] eqn:Ed.
      * left. destruct (negb (String.eqb m _)).
        -- eexists. reflexivity.
        -- exists []. now rewrite app_nil_r.
      * right. right. exists v, []. rewrite app_nil_r. auto.
    + left. exists []. now rewrite app_nil_r.
  - destruct (String.eqb (alias.name a) "*") eqn:Estar.
    + left. exists []. simpl. now rewrite app_nil_r.
    + unfold import_module_call. unfold ret at 1.
      destruct (import_module (dotted m (alias.name a))) as [e|sub] eqn:Eimp.
      * right. left. repeat split. exists e. split; reflexivity.
      * unfold ret, raise, emit. cbn beta iota.
        destruct (isinstance_type sub || callable sub) eqn:Ekind.
        -- destruct (__module__ sub) as [d|] eqn:Ed.
           ++ left. destruct (negb (String.eqb m _)).
              ** rewrite <- app_assoc. eexists. reflexivity.
              ** eexists. reflexivity.
           ++ right. right. exists sub. eexists. auto.
        -- left. eexists. reflexivity.
Qed.

Lemma for_each_cons {A : Type} (x : A) (rest : list A) (body : A -> M unit)
    (log : list event) :
  for_each (x :: rest) body log =
  match body x log with
  | (inl e, log') => (inl e, log')
  | (inr _, log') => for_each rest body log'
  end.
Proof. reflexivity. Qed.

(** The aliases only ever add to the log. *)
Lemma for_each_alias_extends (self : Checker) (m : string) (module : PyObject)
    (l : list alias.t) (log : list event) :
  exists r ext,
    for_each l (visit_alias self m module) log = (r, log ++ ext).
Proof.
  revert log. induction l as [|a rest IH]; intros log.
  - exists (inr tt), []. simpl. unfold ret. now rewrite app_nil_r.
  - rewrite for_each_cons.
    destruct (visit_alias_cases self m module a log)
      as [(ext & ->)|[(_ & _ & e & _ & ->)|(attr & ext & _ & _ & ->)]].
    + destruct (IH (log ++ ext)) as (r & ext' & ->).
      exists r, (ext ++ ext'). now rewrite app_assoc.
    + eexists _, _. reflexivity.
    + eexists _, _. reflexivity.
Qed.

(** A statement that passes the level check and the scope filter calls
    [import_module] on the resolved module. *)
Lemma visit_loads (self : Checker) (node : ImportFrom.t) (m : string)
    (log : list event) :
  (ImportFrom.level node < 2)%Z ->
  resolve_module_to_import self node log = (inr m, log) ->
  startswith m (_top_level_module self) = true ->
  exists r tail,
    visit_ImportFrom self node log = (r, after_import m log ++ tail).
Proof.
  intros Hlevel Hresolve Hscope.
  rewrite (visit_in_scope self node m log Hlevel Hresolve Hscope).
  destruct (import_module m) as [e|module].
  - destruct (is_ModuleNotFoundError e).
    + unfold bind.
      destruct (ignore_not_found_cases self m e (after_import m log))
        as [(_ & ->)|(_ & ->)].
      * eexists _, _. reflexivity.
      * exists (inl e), []. now rewrite app_nil_r.
    + exists (inl e), []. now rewrite app_nil_r.
  - apply for_each_alias_extends.
Qed.

(** When the loop over the first aliases ends normally, the loop over all of
    them goes on from there. *)
Lemma for_each_app {A : Type} (pre rest : list A) (body : A -> M unit)
    (log log' : list event) :
  for_each pre body log = (inr tt, log') ->
  for_each (pre ++ rest) body log = for_each rest body log'.
Proof.
  revert log. induction pre as [|b pre IH]; intros log.
  - intros H. injection H as <-. reflexivity.
  - change ((b :: pre) ++ rest) with (b :: (pre ++ rest)).
    rewrite !for_each_cons.
    destruct (body b log) as [[e|u] log1]; [discriminate|apply IH].
Qed.

End CheckerFacts.

Section CheckerClaims.
Context {host : Host}.

(** C4: an import statement of relative level 2 or more makes the visit raise
    the [ValueError] of the parent-import policy, whatever its module string
    and aliases are; the log is returned as it was, so no module has been
    resolved or loaded. *)
Theorem ancestor_relative_import_raises (self : Checker) (node : ImportFrom.t)
    (log : list event) :
  (ImportFrom.level node >= 2)%Z ->
  visit_ImportFrom self node log =
  (inl (ValueError (parent_import_message (_module self))), log).
Proof.
  intros Hlevel. unfold visit_ImportFrom.
  assert ((ImportFrom.level node >=? 2)%Z = true) as ->
    by (rewrite Z.geb_leb; apply Z.leb_le; lia).
  reflexivity.
Qed.

(** C5: when [import_module] fails on the resolved module with a
    [ModuleNotFoundError], the visit returns normally exactly when some entry
    of the ignore-list is a string prefix of the resolved module name; in that
    case nothing after the import is visited, and otherwise (no match, or no
    list) the same exception is raised. *)
Theorem missing_module_skipped_iff_ignored (self : Checker)
    (node : ImportFrom.t) (m : string) (e : exn) (log : list event) :
  (ImportFrom.level node < 2)%Z ->
  resolve_module_to_import self node log = (inr m, log) ->
  startswith m (_top_level_module self) = true ->
  import_module m = inl e ->
  is_ModuleNotFoundError e = true ->
  (outcome (visit_ImportFrom self node log) = inr tt <->
   exists l entry,
     _module_list_to_ignore_not_found self = Some l /\
     In entry l /\ startswith m entry = true) /\
  (outcome (visit_ImportFrom self node log) = inr tt ->
   visit_ImportFrom self node log =
   (inr tt,
    after_import m log ++
      [Printed ("        Ignore missing module: " ++ m)%string])) /\
  (outcome (visit_ImportFrom self node log) <> inr tt ->
   visit_ImportFrom self node log = (inl e, after_import m log)).
Proof.
  intros Hlevel Hresolve Hscope Himport Hnotfound.
  rewrite (visit_in_scope self node m log Hlevel Hresolve Hscope).
  rewrite Himport, Hnotfound. unfold bind.
  destruct (ignore_not_found_cases self m e (after_import m log))
    as [(Hmatch & ->)|(Hnomatch & ->)]; unfold outcome; simpl.
  - repeat split; intros; try reflexivity; try assumption; congruence.
  - repeat split; intros; try reflexivity; try discriminate.
    contradiction.
Qed.

(** What the code does for the wildcard when the loaded module has no
    attribute named ["*"]: the alias is skipped, with no import, no failure
    and no warning. *)
Lemma wildcard_without_attribute_is_skipped (self : Checker) (m : string)
    (module : PyObject) (a : alias.t) (log : list event) :
  alias.name a = "*"%string ->
  getattr module "*"%string = None ->
  visit_alias self m module a log = (inr tt, log).
Proof.
  intros Hname Hattr. unfold visit_alias, bind.
  rewrite Hname, Hattr. reflexivity.
Qed.

(** C8: when the loop reaches an alias that is neither an attribute of the
    loaded module nor the wildcard, [import_module] is called on the dotted
    name of module and alias, and a failure of that call is the outcome of
    the visit, whatever the exception is and whatever the ignore-list holds:
    nothing is skipped and no later alias is visited. *)
Theorem nested_import_failure_propagates (self : Checker)
    (node : ImportFrom.t) (m : string) (module : PyObject)
    (pre post : list alias.t) (a : alias.t) (e : exn)
    (log log' : list event) :
  (ImportFrom.level node < 2)%Z ->
  resolve_module_to_import self node log = (inr m, log) ->
  startswith m (_top_level_module self) = true ->
  import_module m = inr module ->
  ImportFrom.names node = pre ++ a :: post ->
  for_each pre (visit_alias self m module) (after_import m log) =
    (inr tt, log') ->
  getattr module (alias.name a) = None ->
  alias.name a <> "*"%string ->
  import_module (dotted m (alias.name a)) = inl e ->
  visit_ImportFrom self node log =
  (inl e, log' ++ [Imported (dotted m (alias.name a))]).
Proof.
  intros Hlevel Hresolve Hscope Himport Hnames Hpre Hattr Hstar Hnested.
  rewrite (visit_in_scope self node m log Hlevel Hresolve Hscope).
  rewrite Himport, Hnames.
  rewrite (for_each_app pre (a :: post) _ _ log' Hpre).
  rewrite for_each_cons.
  unfold visit_alias, bind, import_module_call.
  rewrite Hattr. apply String.eqb_neq in Hstar. rewrite Hstar, Hnested.
  reflexivity.
Qed.

(** C9: the scope filter is a character-prefix test: a statement whose
    resolved module starts with the characters of the top-level module is
    not skipped, and [import_module] is called on it, also when it is neither
    the top-level module nor below it in the dotted hierarchy. *)
Theorem scope_filter_passes_character_prefix (self : Checker)
    (node : ImportFrom.t) (m : string) (log : list event) :
  (ImportFrom.level node < 2)%Z ->
  resolve_module_to_import self node log = (inr m, log) ->
  startswith m (_top_level_module self) = true ->
  m <> _top_level_module self ->
  startswith m (_top_level_module self ++ ".")%string = false ->
  exists r tail,
    visit_ImportFrom self node log = (r, after_import m log ++ tail).
Proof.
  intros Hlevel Hresolve Hscope _ _.
  now apply visit_loads.
Qed.

(** C10: a checker built for a dot-free module name that is not a package has
    the empty string as working module and as top-level module, and its
    visit calls [import_module] for every statement of level below 2 whose
    module resolves. *)
Theorem checker_of_dotfree_module_passes_everything (module : string)
    (ignore : option (list string)) (self : Checker) :
  dotfree module = true ->
  (forall s, find_spec module = inr (Some s) -> _is_package s = false) ->
  ImportFromSourceChecker module ignore = inr self ->
  _module self = ""%string /\
  _top_level_module self = ""%string /\
  forall node m log,
    (ImportFrom.level node < 2)%Z ->
    resolve_module_to_import self node log = (inr m, log) ->
    exists r tail,
      visit_ImportFrom self node log = (r, after_import m log ++ tail).
Proof.
  intros Hfree Hnopkg Hbuilt.
  assert (_module self = ""%string /\ _top_level_module self = ""%string)
    as (Hmod & Htop).
  { unfold ImportFromSourceChecker in Hbuilt.
    destruct (find_spec module) as [e|module_spec] eqn:Es; [discriminate|].
    injection Hbuilt as <-. cbn [_module _top_level_module].
    rewrite (split_dotfree module Hfree). simpl removelast.
    assert (match module_spec with
            | Some s =>
                match ModuleSpec.origin s with
                | Some o => endswith o "__init__.py"
                | None => false
                end
            | None => false
            end = false) as ->.
    { destruct module_spec as [s|]; [|reflexivity].
      exact (Hnopkg s eq_refl). }
    split; reflexivity. }
  repeat split; [assumption|assumption|].
  intros node m log Hlevel Hresolve.
  apply visit_loads; [assumption|assumption|].
  rewrite Htop. apply startswith_empty.
Qed.

(** C3, amended: when every alias of a statement is an attribute of the
    loaded module whose declared defining module is the module imported from,
    and that module is its own canonical path as seen from the working
    module, the visit ends normally and logs no warning; and the canonical
    path computation is idempotent. *)
Theorem canonical_source_import_is_silent (self : Checker)
    (node : ImportFrom.t) (m : string) (module : PyObject)
    (log : list event) :
  (ImportFrom.level node < 2)%Z ->
  resolve_module_to_import self node log = (inr m, log) ->
  startswith m (_top_level_module self) = true ->
  import_module m = inr module ->
  (forall a, In a (ImportFrom.names node) ->
     exists attr,
       getattr module (alias.name a) = Some attr /\
       __module__ attr = Some m) ->
  _get_module_should_import (_module self) m = m ->
  visit_ImportFrom self node log = (inr tt, after_import m log) /\
  forall d,
    _get_module_should_import (_module self)
      (_get_module_should_import (_module self) d) =
    _get_module_should_import (_module self) d.
Proof.
  intros Hlevel Hresolve Hscope Himport Hdefined Hcanonical.
  split; [|intros d; apply should_import_idempotent].
  rewrite (visit_in_scope self node m log Hlevel Hresolve Hscope).
  rewrite Himport.
  generalize (after_import m log) as log'.
  induction (ImportFrom.names node) as [|a rest IH]; intros log'.
  - reflexivity.
  - rewrite for_each_cons.
    destruct (Hdefined a (or_introl eq_refl)) as (attr & Hattr & Hdef).
    assert (visit_alias self m module a log' = (inr tt, log')) as ->.
    { unfold visit_alias, bind. rewrite Hattr. unfold ret at 1.
      destruct (isinstance_type attr || callable attr); [|reflexivity].
      rewrite Hdef, Hcanonical, String.eqb_refl. reflexivity. }
    apply IH. intros b Hb. apply Hdefined. now right.
Qed.

End CheckerClaims.

(** ** The enumerator *)

Section EnumeratorFacts.
Context {host : Host}.

Lemma each_child_in (body : ModuleInfo.t -> Yielded)
    (children : list ModuleInfo.t) (x : string) :
  In x (fst (each_child body children)) ->
  exists child, In child children /\ In x (fst (body child)).
Proof.
  induction children as [|c rest IH]; simpl; [contradiction|].
  destruct (body c) as [ys fin] eqn:Ec.
  destruct fin.
  - destruct (each_child body rest) as [zs fin']. simpl in *.
    intros Hin. apply in_app_or in Hin as [Hin|Hin].
    + exists c. rewrite Ec. auto.
    + destruct (IH Hin) as (child & Hchild & Hx). eauto.
  - simpl. intros Hin. exists c. rewrite Ec. auto.
  - simpl. intros Hin. exists c. rewrite Ec. auto.
Qed.

Lemma each_child_finished (body : ModuleInfo.t -> Yielded)
    (children : list ModuleInfo.t) :
  snd (each_child body children) = Finished ->
  forall child, In child children ->
    snd (body child) = Finished /\
    incl (fst (body child)) (fst (each_child body children)).
Proof.
  induction children as [|c rest IH]; simpl; [contradiction|].
  destruct (body c) as [ys fin] eqn:Ec.
  destruct fin; [|discriminate|discriminate].
  destruct (each_child body rest) as [zs fin']. simpl in *.
  intros Hfin child [<-|Hin].
  - rewrite Ec. split; [reflexivity|]. apply incl_appl, incl_refl.
  - destruct (IH Hfin child Hin) as (Hc & Hincl).
    split; [assumption|]. now apply incl_appr.
Qed.


(** One level of the recursion, for a module that passes the test filter and
    has a source origin. *)
Lemma recurse_unfold (depth : nat) (module_name : string)
    (ignore_tests packages_only : bool) (module_spec : ModuleSpec.t)
    (o : string) :
  ignore_tests && _is_test_module module_name = false ->
  find_spec module_name = inr (Some module_spec) ->
  ModuleSpec.origin module_spec = Some o ->
  _recurse_modules (S depth) module_name ignore_tests packages_only =
  ((if negb (packages_only && negb (_is_package module_spec))
    then [module_name] else []) ++
   fst (each_child
          (visit_child
             (fun name => _recurse_modules depth name ignore_tests
                            packages_only)
             module_name packages_only)
          (iter_modules [dirname o])),
   snd (each_child
          (visit_child
             (fun name => _recurse_modules depth name ignore_tests
                            packages_only)
             module_name packages_only)
          (iter_modules [dirname o]))).
Proof.
  intros Hfilter Hspec Horigin. simpl.
  rewrite Hfilter, Hspec, Horigin.
  now destruct (each_child _ _).
Qed.

(** Where the traversal stops at once: the recursion bound, the test filter,
    an exception of [find_spec], a missing spec or a missing origin. *)
Lemma recurse_enters (depth : nat) (module_name : string)
    (ignore_tests packages_only : bool) (x : string) :
  In x (fst (_recurse_modules depth module_name ignore_tests packages_only)) ->
  exists depth' module_spec o,
    depth = S depth' /\
    ignore_tests && _is_test_module module_name = false /\
    find_spec module_name = inr (Some module_spec) /\
    ModuleSpec.origin module_spec = Some o.
Proof.
  destruct depth as [|depth']; simpl; [contradiction|].
  destruct (ignore_tests && _is_test_module module_name); [contradiction|].
  destruct (find_spec module_name) as [e|[module_spec|]];
    [contradiction| |contradiction].
  destruct (ModuleSpec.origin module_spec) as [o|] eqn:Horigin;
    [|contradiction].
  intros _. now exists depth', module_spec, o.
Qed.


(** With both flags set, no name that has been yielded is a test module. *)
Lemma packages_only_ignore_tests_excludes (depth : nat) (module_name : string)
    (x : string) :
  In x (fst (_recurse_modules depth module_name true true)) ->
  _is_test_module x = false.
Proof.
  revert module_name.
  induction depth as [|depth IH]; intros module_name Hin; [contradiction|].
  destruct (recurse_enters _ _ _ _ _ Hin)
    as (d & module_spec & o & Hd & Hfilter & Hspec & Horigin).
  injection Hd as <-.
  rewrite (recurse_unfold depth module_name true true module_spec o
             Hfilter Hspec Horigin) in Hin.
  cbn [fst] in Hin. apply in_app_or in Hin as [Hin|Hin].
  - destruct (_is_package module_spec); simpl in Hin; [|contradiction].
    destruct Hin as [<-|[]]. exact Hfilter.
  - apply each_child_in in Hin as (child & _ & Hx).
    unfold visit_child in Hx.
    destruct (ModuleInfo.ispkg child); [now apply IH in Hx|].
    simpl in Hx. contradiction.
Qed.


(** Everything below a test module is a test module. *)
Lemma is_test_module_dotted (parent child : string) :
  _is_test_module parent = true ->
  _is_test_module (dotted parent child) = true.
Proof.
  unfold _is_test_module. rewrite split_dotted.
  intros H. apply andb_prop in H as [Hlen Hname].
  apply Nat.leb_le in Hlen.
  apply andb_true_intro. split.
  - apply Nat.leb_le. rewrite length_app. lia.
  - rewrite app_nth1 by lia. exact Hname.
Qed.

(** A finished traversal of [parent] contains a finished traversal of each of
    its package children. *)
Lemma recurse_descend (depth : nat) (parent : string)
    (ignore_tests packages_only : bool) (module_spec : ModuleSpec.t)
    (o : string) (child : ModuleInfo.t) :
  snd (_recurse_modules (S depth) parent ignore_tests packages_only) = Finished ->
  ignore_tests && _is_test_module parent = false ->
  find_spec parent = inr (Some module_spec) ->
  ModuleSpec.origin module_spec = Some o ->
  In child (iter_modules [dirname o]) ->
  ModuleInfo.ispkg child = true ->
  snd (_recurse_modules depth (dotted parent (ModuleInfo.name child))
         ignore_tests packages_only) = Finished /\
  incl (fst (_recurse_modules depth (dotted parent (ModuleInfo.name child))
               ignore_tests packages_only))
       (fst (_recurse_modules (S depth) parent ignore_tests packages_only)).
Proof.
  intros Hfin Hfilter Hspec Horigin Hchild Hpkg.
  rewrite (recurse_unfold depth parent ignore_tests packages_only
             module_spec o Hfilter Hspec Horigin) in *.
  cbn [fst snd] in *.
  destruct (each_child_finished _ _ Hfin child Hchild) as (Hc & Hincl).
  unfold visit_child at 1 in Hc. unfold visit_child at 1 in Hincl.
  rewrite Hpkg in Hc, Hincl.
  split; [exact Hc|]. now apply incl_appr.
Qed.

(** Every module on a package-to-package path from the root is traversed,
    to the end, within a finished traversal of the root, unless the test
    filter stops at it. *)
Lemma package_path_traversed (root : string)
    (ignore_tests packages_only : bool) (depth : nat) (n : string) :
  package_path root n ->
  snd (_recurse_modules depth root ignore_tests packages_only) = Finished ->
  ignore_tests && _is_test_module n = false ->
  exists depth',
    snd (_recurse_modules (S depth') n ignore_tests packages_only) = Finished /\
    incl (fst (_recurse_modules (S depth') n ignore_tests packages_only))
         (fst (_recurse_modules depth root ignore_tests packages_only)).
Proof.
  intros Hpath Hfin.
  induction Hpath as [|parent module_spec o child Hpath IH Hspec Horigin
                        Hchild Hpkg]; intros Hfilter.
  - destruct depth as [|depth]; [discriminate|].
    exists depth. split; [assumption|apply incl_refl].
  - assert (ignore_tests && _is_test_module parent = false) as Hparent.
    { destruct ignore_tests; [|reflexivity]. simpl in *.
      destruct (_is_test_module parent) eqn:Ht; [|reflexivity].
      rewrite (is_test_module_dotted parent (ModuleInfo.name child) Ht)
        in Hfilter.
      discriminate. }
    destruct (IH Hparent) as (d & Hd & Hincl).
    destruct (recurse_descend d parent ignore_tests packages_only
                module_spec o child Hd Hparent Hspec Horigin Hchild Hpkg)
      as (Hc & Hcincl).
    destruct d as [|d]; [discriminate|].
    exists d. split; [assumption|].
    eapply incl_tran; eassumption.
Qed.

End EnumeratorFacts.

Section EnumeratorClaims.
Context {host : Host}.


End EnumeratorClaims.

(** ** The properties on the concrete host *)

Module SiteFacts.
Import Site.

(** C1: in [/site/pkg] the plain module [tests.py] sits next to the
    packages; [pkg.tests] is a test module by the code's own predicate, and
    the traversal of [pkg] with [ignore_tests] set yields it. *)
Theorem plain_tests_module_is_yielded :
  _is_test_module "pkg.tests" = true /\
  _recurse_modules 3 "pkg" true false =
    (["pkg"; "pkg.a"; "pkg.b"; "pkg.b._c"; "pkg.b.x"; "pkg.lazy";
      "pkg.tests"]%string, Finished) /\
  In "pkg.tests"%string (fst (_recurse_modules 3 "pkg" true false)).
Proof.
  split; [reflexivity|]. split; [reflexivity|].
  vm_compute. tauto.
Qed.

(** C3, as stated, fails: [Klass] is defined in [pkg.b._c] and imported from
    exactly there by the module [pkg.a], and the visit logs a warning that
    recommends [pkg.b]. *)
Lemma direct_import_from_private_source_warns :
  ImportFromSourceChecker "pkg.a" None = inr (in_pkg None) /\
  getattr (Module_ "pkg.b._c") "Klass"%string = Some (Class_ "pkg.b._c") /\
  __module__ (Class_ "pkg.b._c") = Some "pkg.b._c"%string /\
  visit_ImportFrom (in_pkg None)
    (import_from 0 (Some "pkg.b._c"%string) ["Klass"%string]) [] =
  (inr tt,
   [Printed "    Importing module: pkg.b._c";
    Imported "pkg.b._c";
    Warned (provenance_message "Klass" "pkg.b._c" "pkg.b")]) /\
  no_warning
    (log_of (visit_ImportFrom (in_pkg None)
               (import_from 0 (Some "pkg.b._c"%string) ["Klass"%string]) []))
  = false.
Proof. repeat split. Qed.

(** C6: the module [pkg.lazy] has an attribute named ["*"], a function
    defined in [pkg.a]; visiting [from pkg.lazy import *] in [pkg.a], the
    wildcard alias is not skipped: it is looked up like any other name and
    the visit logs a warning for it. *)
Theorem wildcard_attribute_is_checked :
  ImportFromSourceChecker "pkg.a" None = inr (in_pkg None) /\
  getattr (Module_ "pkg.lazy") "*"%string = Some (Function_ "pkg.a") /\
  visit_ImportFrom (in_pkg None)
    (import_from 0 (Some "pkg.lazy"%string) ["*"%string]) [] =
  (inr tt,
   [Printed "    Importing module: pkg.lazy";
    Imported "pkg.lazy";
    Warned (provenance_message "*" "pkg.lazy" "pkg.a")]) /\
  no_warning
    (log_of (visit_ImportFrom (in_pkg None)
               (import_from 0 (Some "pkg.lazy"%string) ["*"%string]) []))
  = false.
Proof. repeat split. Qed.


(** [from ...sibling import X] in [pkg.a]. *)
Lemma ancestor_relative_import_raises_witness :
  (3 >= 2)%Z /\
  visit_ImportFrom (in_pkg None)
    (import_from 3 (Some "sibling"%string) ["X"%string]) [] =
  (inl (ValueError (parent_import_message "pkg")), []).
Proof.
  split; [lia|].
  refine (ancestor_relative_import_raises (in_pkg None)
            (import_from 3 (Some "sibling"%string) ["X"%string]) [] _).
  simpl. lia.
Defined.

(** [from pkg.optional.extra import X] in [pkg.a], with [pkg.optional] on the
    ignore-list: there is no [pkg.optional]. *)
Lemma missing_module_skipped_iff_ignored_witness :
  startswith "pkg.optional.extra" "pkg" = true /\
  import_module "pkg.optional.extra" =
    inl (ModuleNotFoundError "No module named 'pkg.optional'") /\
  startswith "pkg.optional.extra" "pkg.optional" = true /\
  visit_ImportFrom (in_pkg (Some ["pkg.optional"%string]))
    (import_from 0 (Some "pkg.optional.extra"%string) ["X"%string]) [] =
  (inr tt,
   [Printed "    Importing module: pkg.optional.extra";
    Imported "pkg.optional.extra";
    Printed "        Ignore missing module: pkg.optional.extra"]).
Proof.
  split; [reflexivity|]. split; [reflexivity|]. split; [reflexivity|].
  refine (proj1 (proj2
    (missing_module_skipped_iff_ignored
       (in_pkg (Some ["pkg.optional"%string]))
       (import_from 0 (Some "pkg.optional.extra"%string) ["X"%string])
       "pkg.optional.extra"
       (ModuleNotFoundError "No module named 'pkg.optional'") []
       _ eq_refl eq_refl eq_refl eq_refl)) _).
  - simpl. lia.
  - reflexivity.
Defined.

(** [from pkg.a import *]: [pkg.a] has no attribute named ["*"]. *)
Lemma wildcard_without_attribute_is_skipped_witness :
  getattr (Module_ "pkg.a") "*"%string = None /\
  visit_alias (in_pkg_b None) "pkg.a"
    (Module_ "pkg.a") {| alias.name := "*"; alias.asname := None |} [] =
  (inr tt, []).
Proof.
  split; [reflexivity|].
  exact (wildcard_without_attribute_is_skipped
           (in_pkg_b None) "pkg.a"
           (Module_ "pkg.a") {| alias.name := "*"; alias.asname := None |} []
           eq_refl eq_refl).
Defined.


(** [from .a import helper, nothing] in [pkg.a], with [pkg] itself on the
    ignore-list: [helper] is visited without a warning, and [pkg.a.nothing]
    does not exist. *)
Lemma nested_import_failure_propagates_witness :
  startswith "pkg.a.nothing" "pkg" = true /\
  visit_ImportFrom (in_pkg (Some ["pkg"%string]))
    (import_from 1 (Some "a"%string) ["helper"%string; "nothing"%string]) [] =
  (inl (ModuleNotFoundError
          "No module named 'pkg.a.nothing'; 'pkg.a' is not a package"),
   after_import "pkg.a" [] ++ [Imported "pkg.a.nothing"]).
Proof.
  split; [reflexivity|].
  refine (nested_import_failure_propagates
           (in_pkg (Some ["pkg"%string]))
           (import_from 1 (Some "a"%string)
              ["helper"%string; "nothing"%string])
           "pkg.a" (Module_ "pkg.a")
           [{| alias.name := "helper"; alias.asname := None |}] []
           {| alias.name := "nothing"; alias.asname := None |}
           (ModuleNotFoundError
              "No module named 'pkg.a.nothing'; 'pkg.a' is not a package")
           [] (after_import "pkg.a" [])
           _ _ _ _ _ _ _ _ _).
  - simpl. lia.
  - reflexivity.
  - reflexivity.
  - reflexivity.
  - reflexivity.
  - reflexivity.
  - reflexivity.
  - discriminate.
  - reflexivity.
Defined.

(** [from pkgextra.mod import tool] in [pkg.a]: the top-level module is
    [pkg]. *)
Lemma scope_filter_passes_character_prefix_witness :
  _top_level_module (in_pkg None) = "pkg"%string /\
  startswith "pkgextra.mod" "pkg" = true /\
  startswith "pkgextra.mod" "pkg." = false /\
  exists r tail,
    visit_ImportFrom (in_pkg None)
      (import_from 0 (Some "pkgextra.mod"%string) ["tool"%string]) [] =
    (r, after_import "pkgextra.mod" [] ++ tail).
Proof.
  split; [reflexivity|]. split; [reflexivity|]. split; [reflexivity|].
  refine (scope_filter_passes_character_prefix (in_pkg None)
           (import_from 0 (Some "pkgextra.mod"%string) ["tool"%string])
           "pkgextra.mod" [] _ _ _ _ _).
  - simpl. lia.
  - reflexivity.
  - reflexivity.
  - discriminate.
  - reflexivity.
Defined.

(** The checker of the single-file module [solo] visits
    [from lib.core import deep]. *)
Lemma checker_of_dotfree_module_passes_everything_witness :
  dotfree "solo" = true /\
  ImportFromSourceChecker "solo" None = inr (of_solo None) /\
  _module (of_solo None) = ""%string /\
  _top_level_module (of_solo None) = ""%string /\
  exists r tail,
    visit_ImportFrom (of_solo None)
      (import_from 0 (Some "lib.core"%string) ["deep"%string]) [] =
    (r, after_import "lib.core" [] ++ tail).
Proof.
  split; [reflexivity|]. split; [reflexivity|].
  destruct (checker_of_dotfree_module_passes_everything "solo" None
              (of_solo None) eq_refl)
    as (Hmodule & Htop & Hvisit).
  - intros s Hs. injection Hs as <-. reflexivity.
  - reflexivity.
  - split; [exact Hmodule|]. split; [exact Htop|].
    apply Hvisit; [simpl; lia|reflexivity].
Defined.

(** [from pkg.b.x import Widget] in [pkg.a]: [Widget] is defined in
    [pkg.b.x], which is its own canonical path. *)
Lemma canonical_source_import_is_silent_witness :
  getattr (Module_ "pkg.b.x") "Widget"%string = Some (Class_ "pkg.b.x") /\
  _get_module_should_import "pkg" "pkg.b.x" = "pkg.b.x"%string /\
  visit_ImportFrom (in_pkg None)
    (import_from 0 (Some "pkg.b.x"%string) ["Widget"%string]) [] =
  (inr tt, after_import "pkg.b.x" []).
Proof.
  split; [reflexivity|]. split; [reflexivity|].
  refine (proj1 (canonical_source_import_is_silent (in_pkg None)
           (import_from 0 (Some "pkg.b.x"%string) ["Widget"%string])
           "pkg.b.x" (Module_ "pkg.b.x") [] _ _ _ _ _ _)).
  - simpl. lia.
  - reflexivity.
  - reflexivity.
  - reflexivity.
  - intros a [<-|[]]. exists (Class_ "pkg.b.x"). split; reflexivity.
  - reflexivity.
Defined.

(** [find_spec] raises where the parent of a dotted name is not a package:
    the traversal of the plain module [pkg.a] scans the directory of [pkg],
    yields the plain child, and is closed at the package child [b]; and no
    checker is built for a name below the plain module [solo]. *)
Example traversal_of_plain_module_is_closed :
  _recurse_modules 3 "pkg.a" false false =
  (["pkg.a"; "pkg.a.a"]%string,
   Raised (ModuleNotFoundError
             "__path__ attribute not found on 'pkg.a' while trying to find 'pkg.a.b'")).
Proof. reflexivity. Qed.

Example no_checker_below_plain_module :
  ImportFromSourceChecker "solo.x" None =
  inl (ModuleNotFoundError
         "__path__ attribute not found on 'solo' while trying to find 'solo.x'").
Proof. reflexivity. Qed.

End SiteFacts.

(** * Further properties *)

(** ** More on strings *)

Section MoreStringFacts.

Lemma append_assoc (a b c : string) :
  ((a ++ b) ++ c)%string = (a ++ b ++ c)%string.
Proof.
  induction a as [|x a IH]; [reflexivity|].
  simpl. now rewrite IH.
Qed.

Lemma join_cons_cons (x y : string) (rest : list string) :
  join (x :: y :: rest) = (x ++ "." ++ join (y :: rest))%string.
Proof. reflexivity. Qed.

Lemma join_split (s : string) : join (split s) = s.
Proof.
  induction s as [|c s IH]; [reflexivity|].
  destruct (Ascii.eqb c ".") eqn:E.
  - rewrite split_String_dot by assumption.
    apply Ascii.eqb_eq in E. subst c.
    destruct (split s) as [|h t] eqn:Es; [now destruct (split_not_nil s)|].
    rewrite join_cons_cons, IH. reflexivity.
  - rewrite split_String_dotfree by assumption.
    destruct (split s) as [|h t] eqn:Es; [now destruct (split_not_nil s)|].
    cbn [hd tl].
    destruct t as [|y t'].
    + simpl in *. now rewrite IH.
    + rewrite join_cons_cons. rewrite join_cons_cons in IH.
      rewrite <- IH. reflexivity.
Qed.

Lemma startswith_trans (a b c : string) :
  startswith a b = true -> startswith b c = true -> startswith a c = true.
Proof.
  revert a b.
  induction c as [|x c IH]; intros a b Hab Hbc; [reflexivity|].
  destruct b as [|y b]; [discriminate|].
  destruct a as [|z a]; [discriminate|].
  simpl in *.
  apply andb_prop in Hab as [Hyz Hab].
  apply andb_prop in Hbc as [Hxy Hbc].
  apply Ascii.eqb_eq in Hyz, Hxy. subst.
  rewrite Ascii.eqb_refl. simpl. eapply IH; eassumption.
Qed.

Lemma startswith_app_same (p a b : string) :
  startswith (p ++ a)%string (p ++ b)%string = startswith a b.
Proof.
  induction p as [|c p IH]; [reflexivity|].
  simpl. now rewrite Ascii.eqb_refl.
Qed.

Lemma startswith_app_weaken (a b p : string) :
  startswith a p = true -> startswith (a ++ b)%string p = true.
Proof.
  revert a.
  induction p as [|c p IH]; intros a H; [reflexivity|].
  destruct a as [|x a]; [discriminate|].
  simpl in *. apply andb_prop in H as [Hc H].
  rewrite Hc. simpl. now apply IH.
Qed.

Lemma startswith_iff (s p : string) :
  startswith s p = true <-> exists rest, s = (p ++ rest)%string.
Proof.
  split.
  - revert s. induction p as [|c p IH]; intros s H.
    + now exists s.
    + destruct s as [|x s]; [discriminate|].
      simpl in H. apply andb_prop in H as [Hc H].
      apply Ascii.eqb_eq in Hc. subst x.
      destruct (IH s H) as (rest & ->). now exists rest.
  - intros (rest & ->). apply startswith_app.
Qed.

Lemma endswith_app (pre suf : string) :
  endswith (pre ++ suf)%string suf = true.
Proof.
  induction pre as [|c pre IH].
  - destruct suf; simpl; rewrite ?Ascii.eqb_refl, ?String.eqb_refl;
      reflexivity.
  - change (String c pre ++ suf)%string with (String c (pre ++ suf)%string).
    simpl. rewrite IH. apply orb_true_r.
Qed.

Lemma endswith_iff (s suf : string) :
  endswith s suf = true <-> exists pre, s = (pre ++ suf)%string.
Proof.
  split.
  - induction s as [|c s IH]; intros H.
    + destruct suf; [now exists ""%string|discriminate].
    + cbn [endswith] in H. apply orb_prop in H as [H|H].
      * apply String.eqb_eq in H. subst. now exists ""%string.
      * destruct (IH H) as (pre & ->). now exists (String c pre).
  - intros (pre & ->). apply endswith_app.
Qed.

Lemma join_firstn_prefix (l : list string) (i : nat) :
  startswith (join l) (join (firstn i l)) = true.
Proof.
  revert i. induction l as [|x rest IH]; intros i.
  - now rewrite firstn_nil.
  - destruct i as [|j]; [reflexivity|].
    rewrite firstn_cons.
    destruct rest as [|y r].
    + rewrite firstn_nil. apply startswith_refl.
    + destruct j as [|k].
      * rewrite join_cons_cons. simpl firstn. simpl join at 2.
        apply startswith_app.
      * rewrite firstn_cons, !join_cons_cons.
        rewrite startswith_app_same.
        change (String "." (join (y :: r)))
          with ("." ++ join (y :: r))%string.
        change (String "." (join (y :: firstn k r)))
          with ("." ++ join (y :: firstn k r))%string.
        rewrite startswith_app_same.
        rewrite <- firstn_cons. apply IH.
Qed.

Lemma startswith_dotted (parent child : string) :
  startswith (dotted parent child) (parent ++ ".")%string = true.
Proof.
  unfold dotted.
  change (parent ++ "." ++ child)%string
    with (parent ++ String "." child)%string.
  rewrite startswith_app_same. simpl. reflexivity.
Qed.

Lemma hd_split_prefix (s : string) :
  startswith s (hd ""%string (split s)) = true.
Proof.
  rewrite <- (join_split s) at 1.
  destruct (split s) as [|h t]; [reflexivity|].
  destruct t as [|y t]; [apply startswith_refl|].
  rewrite join_cons_cons. apply startswith_app.
Qed.

Lemma hd_split_dotfree (s : string) :
  dotfree (hd ""%string (split s)) = true.
Proof.
  pose proof (split_components_dotfree s) as H.
  destruct (split s); [reflexivity|].
  now inversion H.
Qed.

End MoreStringFacts.

(** ** More on the canonical path *)

Section MoreCanonicalPathFacts.
Variable self_module : string.

Lemma should_import_unblocked (module_to_import : string) :
  (forall i, i < List.length (split module_to_import) ->
     blocked_at self_module (split module_to_import) i = false) ->
  _get_module_should_import self_module module_to_import = module_to_import.
Proof.
  intros Hfree. unfold _get_module_should_import.
  rewrite accumulate_stop. simpl.
  destruct (stop_index_spec self_module (split module_to_import) [])
    as (Hle & _ & Hat).
  simpl in Hat.
  set (i := stop_index self_module (split module_to_import) []) in *.
  destruct (Nat.eq_dec i (List.length (split module_to_import))) as [->|Hne].
  - rewrite firstn_all. apply join_split.
  - assert (i < List.length (split module_to_import)) as Hlt by lia.
    specialize (Hat Hlt). specialize (Hfree i Hlt).
    unfold blocked_at in Hfree. unfold private_outside in Hat. congruence.
Qed.

(** X1: the canonical path of a defining module none of whose components
    starts with an underscore is that module itself, for every working
    module. *)
Theorem public_source_is_canonical (module_to_import : string) :
  (forall c, In c (split module_to_import) -> startswith c "_" = false) ->
  _get_module_should_import self_module module_to_import = module_to_import.
Proof.
  intros Hpublic. apply should_import_unblocked. intros i Hi.
  unfold blocked_at. rewrite (Hpublic (nth i (split module_to_import) ""%string)).
  - reflexivity.
  - now apply nth_In.
Qed.

(** X2: when the working module starts with the defining module (it is that
    module or lies below it), the canonical path is the defining module
    itself, private components included. *)
Theorem enclosing_source_is_canonical (module_to_import : string) :
  startswith self_module module_to_import = true ->
  _get_module_should_import self_module module_to_import = module_to_import.
Proof.
  intros Hinside. apply should_import_unblocked. intros i Hi.
  unfold blocked_at.
  assert (startswith self_module
            (join (firstn i (split module_to_import))) = true) as ->.
  { eapply startswith_trans; [exact Hinside|].
    rewrite <- (join_split module_to_import) at 1.
    apply join_firstn_prefix. }
  apply andb_false_r.
Qed.

(** X3: the canonical path is always a prefix of the defining module: the
    loop only ever drops trailing components. *)
Theorem should_import_is_prefix (module_to_import : string) :
  startswith module_to_import
    (_get_module_should_import self_module module_to_import) = true.
Proof.
  unfold _get_module_should_import. rewrite accumulate_stop. simpl.
  rewrite <- (join_split module_to_import) at 1.
  apply join_firstn_prefix.
Qed.

End MoreCanonicalPathFacts.

(** ** The predicates of the enumerator *)

(** X4: below a dot-free top-level name, the test modules are exactly the
    names whose next component is [tests]; the top-level name itself is never
    a test module. *)
Theorem test_modules_are_below_tests (top : string) :
  dotfree top = true ->
  _is_test_module top = false /\
  forall rest,
    _is_test_module (dotted top rest) = true <->
    hd ""%string (split rest) = "tests"%string.
Proof.
  intros Hfree. split.
  - unfold _is_test_module. now rewrite (split_dotfree top Hfree).
  - intros rest. unfold _is_test_module.
    rewrite split_dotted, (split_dotfree top Hfree).
    destruct (split rest) as [|h t] eqn:Es;
      [now destruct (split_not_nil rest)|].
    simpl. apply String.eqb_eq.
Qed.

(** A spec counts as a package exactly when it has an origin that ends with
    the characters [__init__.py]. *)
Lemma package_iff_origin_suffix (module_spec : ModuleSpec.t) :
  _is_package module_spec = true <->
  exists pre,
    ModuleSpec.origin module_spec = Some (pre ++ "__init__.py")%string.
Proof.
  unfold _is_package.
  destruct (ModuleSpec.origin module_spec) as [o|].
  - rewrite endswith_iff. split.
    + intros (pre & ->). now exists pre.
    + intros (pre & H). injection H as ->. now exists pre.
  - split; [discriminate|]. intros (pre & H). discriminate.
Qed.

(** ** The construction of the checker *)

Section ConstructionFacts.
Context {host : Host}.

(** What the constructor builds, when it builds a checker. *)
Lemma constructed_fields (module : string) (ignore : option (list string))
    (self : Checker) :
  ImportFromSourceChecker module ignore = inr self ->
  _top_level_module self = hd ""%string (split (_module self)) /\
  _module_list_to_ignore_not_found self = ignore /\
  exists module_spec,
    find_spec module = inr module_spec /\
    _module self =
      if match module_spec with
         | Some s => _is_package s
         | None => false
         end
      then module else join (removelast (split module)).
Proof.
  unfold ImportFromSourceChecker.
  destruct (find_spec module) as [e|module_spec]; [discriminate|].
  intros H. injection H as <-. cbn [_module _top_level_module
                                      _module_list_to_ignore_not_found].
  repeat split. exists module_spec. split; [reflexivity|].
  destruct module_spec as [s|]; reflexivity.
Qed.

(** X6: the top-level module of a constructed checker has no dot and is a
    prefix of its working module. *)
Theorem top_level_is_first_component (module : string)
    (ignore : option (list string)) (self : Checker) :
  ImportFromSourceChecker module ignore = inr self ->
  dotfree (_top_level_module self) = true /\
  startswith (_module self) (_top_level_module self) = true.
Proof.
  intros Hbuilt.
  destruct (constructed_fields module ignore self Hbuilt) as (-> & _).
  split; [apply hd_split_dotfree|apply hd_split_prefix].
Qed.

(** X7: the working module of a module that is not a package is its dotted
    parent. *)
Theorem working_module_of_plain_module (parent leaf : string)
    (ignore : option (list string)) (self : Checker) :
  dotfree leaf = true ->
  (forall s, find_spec (dotted parent leaf) = inr (Some s) ->
     _is_package s = false) ->
  ImportFromSourceChecker (dotted parent leaf) ignore = inr self ->
  _module self = parent /\
  _top_level_module self = hd ""%string (split parent).
Proof.
  intros Hleaf Hplain Hbuilt.
  destruct (constructed_fields _ ignore self Hbuilt)
    as (Htop & _ & module_spec & Hspec & Hmod).
  assert (_module self = parent) as Hparent.
  { rewrite Hmod.
    assert (match module_spec with
            | Some s => _is_package s
            | None => false
            end = false) as ->.
    { destruct module_spec as [s|]; [|reflexivity]. now apply Hplain. }
    rewrite split_dotted, (split_dotfree leaf Hleaf), removelast_last.
    apply join_split. }
  split; [exact Hparent|]. now rewrite Htop, Hparent.
Qed.

(** X8: for a constructed checker, a relative import of level 1 always
    passes the scope filter: [import_module] is called on the working module,
    or on the working module followed by the statement's module. *)
Theorem relative_import_is_always_loaded (module : string)
    (ignore : option (list string)) (self : Checker) (node : ImportFrom.t)
    (log : list event) :
  ImportFromSourceChecker module ignore = inr self ->
  ImportFrom.level node <> 0%Z ->
  (ImportFrom.level node < 2)%Z ->
  exists r tail,
    visit_ImportFrom self node log =
    (r,
     after_import
       match ImportFrom.module node with
       | None => _module self
       | Some sub => dotted (_module self) sub
       end log ++ tail).
Proof.
  intros Hbuilt Hrel Hlevel.
  assert (startswith (_module self) (_top_level_module self) = true)
    as Hprefix.
  { destruct (constructed_fields module ignore self Hbuilt) as (-> & _).
    apply hd_split_prefix. }
  apply visit_loads; [assumption| |].
  - unfold resolve_module_to_import.
    apply Z.eqb_neq in Hrel. rewrite Hrel.
    now destruct (ImportFrom.module node).
  - destruct (ImportFrom.module node) as [sub|]; [|exact Hprefix].
    unfold dotted. now apply startswith_app_weaken.
Qed.

End ConstructionFacts.

(** ** More on the visit *)

Section MoreCheckerFacts.
Context {host : Host}.

Lemma count_imports_app (a b : list event) :
  count_imports (a ++ b) = count_imports a + count_imports b.
Proof. unfold count_imports. now rewrite filter_app, length_app. Qed.

Lemma count_warnings_app (a b : list event) :
  count_warnings (a ++ b) = count_warnings a + count_warnings b.
Proof. unfold count_warnings. now rewrite filter_app, length_app. Qed.

Lemma no_warning_app (a b : list event) :
  no_warning (a ++ b) = no_warning a && no_warning b.
Proof. unfold no_warning. apply forallb_app. Qed.

(** Resolution either gives a module name or fails the assertion of the
    absolute case; it leaves the log alone and reads only the working
    module. *)
Lemma resolve_cases (self : Checker) (node : ImportFrom.t)
    (log : list event) :
  (exists m, resolve_module_to_import self node log = (inr m, log)) \/
  (resolve_module_to_import self node log = (inl AssertionError, log) /\
   ImportFrom.level node = 0%Z /\ ImportFrom.module node = None).
Proof.
  unfold resolve_module_to_import.
  destruct (ImportFrom.level node =? 0)%Z eqn:E.
  - apply Z.eqb_eq in E.
    destruct (ImportFrom.module node) as [m|].
    + left. now exists m.
    + right. auto.
  - destruct (ImportFrom.module node) as [m|]; left; eexists; reflexivity.
Qed.

Lemma resolve_same_module (s1 s2 : Checker) (node : ImportFrom.t)
    (log : list event) :
  _module s1 = _module s2 ->
  resolve_module_to_import s1 node log = resolve_module_to_import s2 node log.
Proof.
  intros H. unfold resolve_module_to_import. now rewrite H.
Qed.

Lemma visit_alias_same_module (s1 s2 : Checker) (m : string)
    (module : PyObject) (a : alias.t) (log : list event) :
  _module s1 = _module s2 ->
  visit_alias s1 m module a log = visit_alias s2 m module a log.
Proof.
  intros H. unfold visit_alias. now rewrite H.
Qed.

Lemma for_each_ext {A : Type} (l : list A) (f g : A -> M unit)
    (log : list event) :
  (forall x log', f x log' = g x log') ->
  for_each l f log = for_each l g log.
Proof.
  intros Hfg. revert log.
  induction l as [|x rest IH]; intros log; [reflexivity|].
  rewrite !for_each_cons, Hfg.
  destruct (g x log) as [[e|u] log']; [reflexivity|apply IH].
Qed.

(** A statement whose resolved module fails the scope filter. *)
Lemma visit_out_of_scope (self : Checker) (node : ImportFrom.t) (m : string)
    (log : list event) :
  (ImportFrom.level node < 2)%Z ->
  resolve_module_to_import self node log = (inr m, log) ->
  startswith m (_top_level_module self) = false ->
  visit_ImportFrom self node log = (inr tt, log).
Proof.
  intros Hlevel Hresolve Hscope.
  unfold visit_ImportFrom. rewrite (level_below_2 node Hlevel).
  unfold bind at 1. rewrite Hresolve, Hscope. reflexivity.
Qed.

(** A statement whose resolution fails. *)
Lemma visit_unresolved (self : Checker) (node : ImportFrom.t) (e : exn)
    (log : list event) :
  (ImportFrom.level node < 2)%Z ->
  resolve_module_to_import self node log = (inl e, log) ->
  visit_ImportFrom self node log = (inl e, log).
Proof.
  intros Hlevel Hresolve.
  unfold visit_ImportFrom. rewrite (level_below_2 node Hlevel).
  unfold bind at 1. now rewrite Hresolve.
Qed.

(** A statement of level 2 or more. *)
Lemma visit_above_parent (self : Checker) (node : ImportFrom.t)
    (log : list event) :
  (2 <= ImportFrom.level node)%Z ->
  visit_ImportFrom self node log =
  (inl (ValueError (parent_import_message (_module self))), log).
Proof.
  intros Hlevel. unfold visit_ImportFrom.
  assert ((ImportFrom.level node >=? 2)%Z = true) as ->
    by (rewrite Z.geb_leb; now apply Z.leb_le).
  reflexivity.
Qed.

(** Two checkers with the same working and top-level module visit a
    statement alike when their handlers agree wherever this statement can
    call them. *)
Lemma visit_congruence (s1 s2 : Checker) (node : ImportFrom.t)
    (log : list event) :
  _module s1 = _module s2 ->
  _top_level_module s1 = _top_level_module s2 ->
  (forall m e,
     resolve_module_to_import s1 node log = (inr m, log) ->
     import_module m = inl e ->
     is_ModuleNotFoundError e = true ->
     ignore_not_found s1 m e (after_import m log) =
     ignore_not_found s2 m e (after_import m log)) ->
  visit_ImportFrom s1 node log = visit_ImportFrom s2 node log.
Proof.
  intros Hmod Htop Hhandler.
  destruct (Z_lt_ge_dec (ImportFrom.level node) 2) as [Hlevel|Hlevel].
  - pose proof (resolve_same_module s1 s2 node log Hmod) as Hsame.
    destruct (resolve_cases s1 node log) as [(m & Hres)|(Hres & _)].
    + assert (resolve_module_to_import s2 node log = (inr m, log)) as Hres2
        by congruence.
      destruct (startswith m (_top_level_module s1)) eqn:Hscope.
      * rewrite (visit_in_scope s1 node m log Hlevel Hres Hscope).
        rewrite Htop in Hscope.
        rewrite (visit_in_scope s2 node m log Hlevel Hres2 Hscope).
        destruct (import_module m) as [e|module] eqn:Himp.
        -- destruct (is_ModuleNotFoundError e) eqn:He; [|reflexivity].
           unfold bind. now rewrite (Hhandler m e Hres Himp He).
        -- apply for_each_ext. intros a log'.
           now apply visit_alias_same_module.
      * rewrite (visit_out_of_scope s1 node m log Hlevel Hres Hscope).
        rewrite Htop in Hscope.
        now rewrite (visit_out_of_scope s2 node m log Hlevel Hres2 Hscope).
    + rewrite (visit_unresolved s1 node _ log Hlevel Hres).
      rewrite Hsame in Hres.
      now rewrite (visit_unresolved s2 node _ log Hlevel Hres).
  - rewrite !visit_above_parent by lia. now rewrite Hmod.
Qed.

(** One alias adds at most one import and at most one warning. *)
Lemma visit_alias_bounded (self : Checker) (m : string) (module : PyObject)
    (a : alias.t) (log : list event) :
  exists r ext,
    visit_alias self m module a log = (r, log ++ ext) /\
    count_imports ext <= 1 /\ count_warnings ext <= 1.
Proof.
  unfold visit_alias, bind, import_module_call, emit, ret, raise.
  destruct (getattr module (alias.name a)) as [v|].
  - destruct (isinstance_type v || callable v).
    + destruct (__module__ v) as [d|].
      * destruct (negb (String.eqb m _)).
        -- eexists _, [_]. split; [reflexivity|]. cbv. lia.
        -- exists (inr tt), []. rewrite app_nil_r. split; [reflexivity|].
           cbv. lia.
      * eexists _, []. rewrite app_nil_r. split; [reflexivity|].
        cbv. lia.
    + exists (inr tt), []. rewrite app_nil_r. split; [reflexivity|].
      cbv. lia.
  - destruct (String.eqb (alias.name a) "*").
    + exists (inr tt), []. rewrite app_nil_r. split; [reflexivity|].
      cbv. lia.
    + destruct (import_module (dotted m (alias.name a))) as [e|sub].
      * eexists _, [_]. split; [reflexivity|]. cbv. lia.
      * destruct (isinstance_type sub || callable sub).
        -- destruct (__module__ sub) as [d|].
           ++ destruct (negb (String.eqb m _)).
              ** eexists _, [_; _]. rewrite <- app_assoc.
                 split; [reflexivity|]. cbv. lia.
              ** eexists _, [_]. split; [reflexivity|]. cbv. lia.
           ++ eexists _, [_]. split; [reflexivity|]. cbv. lia.
        -- eexists _, [_]. split; [reflexivity|]. cbv. lia.
Qed.

Lemma for_each_alias_bounded (self : Checker) (m : string)
    (module : PyObject) (l : list alias.t) (log : list event) :
  exists r ext,
    for_each l (visit_alias self m module) log = (r, log ++ ext) /\
    count_imports ext <= List.length l /\
    count_warnings ext <= List.length l.
Proof.
  revert log. induction l as [|a rest IH]; intros log.
  - exists (inr tt), []. rewrite app_nil_r. repeat split; cbv; lia.
  - rewrite for_each_cons.
    destruct (visit_alias_bounded self m module a log)
      as (r & ext & -> & Hi & Hw).
    destruct r as [e|u].
    + exists (inl e), ext. simpl. repeat split; lia.
    + destruct (IH (log ++ ext)) as (r' & ext' & -> & Hi' & Hw').
      exists r', (ext ++ ext'). rewrite app_assoc.
      rewrite count_imports_app, count_warnings_app. simpl.
      repeat split; lia.
Qed.


End MoreCheckerFacts.

Section MoreCheckerProperties.
Context {host : Host}.


(** X10: a visit only appends to the log, and what it appends holds at most
    one import per alias plus one for the statement, and at most one warning
    per alias. *)
Theorem visit_appends_bounded (self : Checker) (node : ImportFrom.t)
    (log : list event) :
  exists r ext,
    visit_ImportFrom self node log = (r, log ++ ext) /\
    count_imports ext <= 1 + List.length (ImportFrom.names node) /\
    count_warnings ext <= List.length (ImportFrom.names node).
Proof.
  destruct (Z_lt_ge_dec (ImportFrom.level node) 2) as [Hlevel|Hlevel].
  - destruct (resolve_cases self node log) as [(m & Hres)|(Hres & _)].
    + destruct (startswith m (_top_level_module self)) eqn:Hscope.
      * rewrite (visit_in_scope self node m log Hlevel Hres Hscope).
        unfold after_import.
        destruct (import_module m) as [e0|module].
        -- destruct (is_ModuleNotFoundError e0).
           ++ unfold bind.
              destruct (ignore_not_found_cases self m e0
                          (log ++ [Printed ("    Importing module: " ++ m);
                                   Imported m]))
                as [(_ & ->)|(_ & ->)].
              ** rewrite <- app_assoc. eexists _, _.
                 split; [reflexivity|]. cbv [count_imports count_warnings].
                 simpl. lia.
              ** eexists _, _. split; [reflexivity|].
                 cbv [count_imports count_warnings]. simpl. lia.
           ++ eexists _, _. split; [reflexivity|].
              cbv [count_imports count_warnings]. simpl. lia.
        -- destruct (for_each_alias_bounded self m module
                       (ImportFrom.names node)
                       (log ++ [Printed ("    Importing module: " ++ m);
                                Imported m]))
             as (r & ext & -> & Hi & Hw).
           rewrite <- app_assoc. eexists _, _. split; [reflexivity|].
           rewrite count_imports_app, count_warnings_app.
           cbv [count_imports count_warnings] in *. simpl in *. lia.
      * rewrite (visit_out_of_scope self node m log Hlevel Hres Hscope).
        exists (inr tt), []. rewrite app_nil_r.
        split; [reflexivity|]. cbv [count_imports count_warnings]. simpl. lia.
    + rewrite (visit_unresolved self node _ log Hlevel Hres).
      eexists _, []. rewrite app_nil_r.
      split; [reflexivity|]. cbv [count_imports count_warnings]. simpl. lia.
  - rewrite visit_above_parent by lia.
    eexists _, []. rewrite app_nil_r.
    split; [reflexivity|]. cbv [count_imports count_warnings]. simpl. lia.
Qed.

(** X11: a statement of level below 2 whose module resolves is skipped,
    leaving no trace in the log, exactly when the resolved module does not
    start with the top-level module. *)
Theorem skipped_iff_out_of_scope (self : Checker) (node : ImportFrom.t)
    (m : string) (log : list event) :
  (ImportFrom.level node < 2)%Z ->
  resolve_module_to_import self node log = (inr m, log) ->
  (visit_ImportFrom self node log = (inr tt, log) <->
   startswith m (_top_level_module self) = false).
Proof.
  intros Hlevel Hres. split.
  - intros Hvisit.
    destruct (startswith m (_top_level_module self)) eqn:Hscope;
      [|reflexivity].
    destruct (visit_loads self node m log Hlevel Hres Hscope)
      as (r & tail & Hloads).
    rewrite Hvisit in Hloads. injection Hloads as _ Hlog.
    apply (f_equal (@List.length event)) in Hlog.
    unfold after_import in Hlog. rewrite !length_app in Hlog.
    simpl in Hlog. lia.
  - now apply visit_out_of_scope.
Qed.

(** X12: when every alias of a loaded statement is an attribute of the
    module, and the classes and callables among the attributes have a
    [__module__], the visit ends normally without a further import, and it
    logs no warning exactly when every class or callable among the
    attributes has the module imported from as its canonical path. *)
Theorem warnings_iff_not_canonical (self : Checker) (node : ImportFrom.t)
    (m : string) (module : PyObject) (log : list event) :
  (ImportFrom.level node < 2)%Z ->
  resolve_module_to_import self node log = (inr m, log) ->
  startswith m (_top_level_module self) = true ->
  import_module m = inr module ->
  (forall a, In a (ImportFrom.names node) ->
     exists attr,
       getattr module (alias.name a) = Some attr /\
       (isinstance_type attr || callable attr = true ->
        __module__ attr <> None)) ->
  exists ext,
    visit_ImportFrom self node log = (inr tt, after_import m log ++ ext) /\
    count_imports ext = 0 /\
    (no_warning ext = true <->
     forall a attr defined_in,
       In a (ImportFrom.names node) ->
       getattr module (alias.name a) = Some attr ->
       isinstance_type attr || callable attr = true ->
       __module__ attr = Some defined_in ->
       _get_module_should_import (_module self) defined_in = m).
Proof.
  intros Hlevel Hres Hscope Himp Hattrs.
  rewrite (visit_in_scope self node m log Hlevel Hres Hscope), Himp.
  generalize (after_import m log) as log'.
  induction (ImportFrom.names node) as [|a rest IH]; intros log'.
  - exists []. rewrite app_nil_r. repeat split; try reflexivity.
    intros _ a attr d [].
  - destruct (Hattrs a (or_introl eq_refl)) as (attr & Ea & Hhas).
    assert (exists ext_a,
              visit_alias self m module a log' = (inr tt, log' ++ ext_a) /\
              count_imports ext_a = 0 /\
              (no_warning ext_a = true <->
               (forall defined_in,
                  isinstance_type attr || callable attr = true ->
                  __module__ attr = Some defined_in ->
                  _get_module_should_import (_module self) defined_in = m)))
      as (ext_a & Hvisit & Hcount & Hwarn).
    { unfold visit_alias, bind, emit. rewrite Ea. unfold ret at 1.
      destruct (isinstance_type attr || callable attr).
      - destruct (__module__ attr) as [d|] eqn:Ed;
          [|now destruct (Hhas eq_refl)].
        destruct (String.eqb m _) eqn:Eeq; simpl.
        + exists []. rewrite app_nil_r. repeat split; try reflexivity.
          intros _ d' _ Hd'. injection Hd' as <-.
          apply String.eqb_eq in Eeq. now symmetry.
        + eexists [_]. repeat split; try reflexivity.
          * discriminate.
          * intros H. specialize (H d eq_refl eq_refl).
            rewrite H, String.eqb_refl in Eeq. discriminate.
      - exists []. rewrite app_nil_r. repeat split; try reflexivity.
        discriminate. }
    destruct (IH (fun b Hb => Hattrs b (or_intror Hb)) (log' ++ ext_a))
      as (ext & Hloop & Hcount' & Hwarn').
    exists (ext_a ++ ext).
    rewrite for_each_cons, Hvisit, Hloop, app_assoc.
    split; [reflexivity|]. split.
    + rewrite count_imports_app. lia.
    + rewrite no_warning_app, andb_true_iff, Hwarn, Hwarn'. split.
      * intros (Ha & Hrest) b attr' d [<-|Hb] Hget Hkind Hd.
        -- rewrite Ea in Hget. injection Hget as <-. now apply Ha.
        -- eapply Hrest; eassumption.
      * intros Hall. split.
        -- intros d Hkind Hd. apply (Hall a attr d); auto. now left.
        -- intros b attr' d Hb. apply Hall. now right.
Qed.

(** X13: the ignore-list matters only when [import_module] fails on the
    resolved module with a [ModuleNotFoundError]: otherwise two checkers that
    differ in nothing but their ignore-lists visit a statement alike. *)
Theorem ignore_list_matters_only_when_not_found (self : Checker)
    (other : option (list string)) (node : ImportFrom.t) (m : string)
    (log : list event) :
  resolve_module_to_import self node log = (inr m, log) ->
  (forall e, import_module m = inl e -> is_ModuleNotFoundError e = false) ->
  visit_ImportFrom self node log =
  visit_ImportFrom
    {| _module := _module self;
       _top_level_module := _top_level_module self;
       _module_list_to_ignore_not_found := other |} node log.
Proof.
  intros Hres Hfound.
  apply visit_congruence; [reflexivity|reflexivity|].
  intros m' e Hres' Himp He.
  rewrite Hres in Hres'. injection Hres' as <-.
  rewrite (Hfound e Himp) in He. discriminate.
Qed.

(** X14: an empty ignore-list behaves like no ignore-list. *)
Theorem empty_ignore_list_is_no_list (self_module top : string)
    (node : ImportFrom.t) (log : list event) :
  visit_ImportFrom
    {| _module := self_module; _top_level_module := top;
       _module_list_to_ignore_not_found := Some [] |} node log =
  visit_ImportFrom
    {| _module := self_module; _top_level_module := top;
       _module_list_to_ignore_not_found := None |} node log.
Proof.
  apply visit_congruence; reflexivity.
Qed.

(** X15: an ignore-list that holds the empty string excuses every module
    that is not found: the empty string is a prefix of every name. *)
Theorem empty_entry_ignores_every_missing_module (self : Checker)
    (l : list string) (node : ImportFrom.t) (m : string) (e : exn)
    (log : list event) :
  _module_list_to_ignore_not_found self = Some l ->
  In ""%string l ->
  (ImportFrom.level node < 2)%Z ->
  resolve_module_to_import self node log = (inr m, log) ->
  startswith m (_top_level_module self) = true ->
  import_module m = inl e ->
  is_ModuleNotFoundError e = true ->
  visit_ImportFrom self node log =
  (inr tt,
   after_import m log ++
     [Printed ("        Ignore missing module: " ++ m)%string]).
Proof.
  intros Hlist Hin Hlevel Hres Hscope Himp He.
  rewrite (visit_in_scope self node m log Hlevel Hres Hscope), Himp, He.
  unfold bind.
  destruct (ignore_not_found_cases self m e (after_import m log))
    as [(_ & ->)|(Hnone & _)]; [reflexivity|].
  exfalso. apply Hnone. exists l, ""%string. auto.
Qed.

End MoreCheckerProperties.

(** ** More on the enumerator *)

Section MoreEnumeratorFacts.
Context {host : Host}.

Lemma enter_cases (module_name : string) (ignore_tests : bool) :
  nothing_to_enter module_name ignore_tests \/
  (exists e,
     ignore_tests && _is_test_module module_name = false /\
     find_spec module_name = inl e) \/
  exists module_spec o,
    ignore_tests && _is_test_module module_name = false /\
    find_spec module_name = inr (Some module_spec) /\
    ModuleSpec.origin module_spec = Some o.
Proof.
  unfold nothing_to_enter.
  destruct (ignore_tests && _is_test_module module_name); [now left; left|].
  destruct (find_spec module_name) as [e|[module_spec|]].
  - right. left. now exists e.
  - destruct (ModuleSpec.origin module_spec) as [o|] eqn:Eo.
    + right. right. now exists module_spec, o.
    + left. right. right. now exists module_spec.
  - left. right. now left.
Qed.

Lemma recurse_nothing (depth : nat) (module_name : string)
    (ignore_tests packages_only : bool) :
  nothing_to_enter module_name ignore_tests ->
  _recurse_modules (S depth) module_name ignore_tests packages_only =
  ([], Finished).
Proof.
  intros [H|[H|(module_spec & Hs & Ho)]]; simpl.
  - now rewrite H.
  - rewrite H. now destruct (ignore_tests && _is_test_module module_name).
  - rewrite Hs, Ho.
    now destruct (ignore_tests && _is_test_module module_name).
Qed.

(** An exception of [find_spec] closes the generator before it yields. *)
Lemma recurse_raises (depth : nat) (module_name : string)
    (ignore_tests packages_only : bool) (e : exn) :
  ignore_tests && _is_test_module module_name = false ->
  find_spec module_name = inl e ->
  _recurse_modules (S depth) module_name ignore_tests packages_only =
  ([], Raised e).
Proof.
  intros Hfilter Hspec. simpl. now rewrite Hfilter, Hspec.
Qed.

Lemma each_child_incl (b1 b2 : ModuleInfo.t -> Yielded)
    (children : list ModuleInfo.t) :
  (forall c, In c children ->
     snd (b1 c) = snd (b2 c) /\ incl (fst (b1 c)) (fst (b2 c))) ->
  snd (each_child b1 children) = snd (each_child b2 children) /\
  incl (fst (each_child b1 children)) (fst (each_child b2 children)).
Proof.
  induction children as [|c rest IH]; intros Hrel; simpl.
  - split; [reflexivity|apply incl_refl].
  - destruct (Hrel c (or_introl eq_refl)) as (Hs & Hi).
    destruct (IH (fun c' H => Hrel c' (or_intror H))) as (Hs' & Hi').
    destruct (b1 c) as [ys1 f1], (b2 c) as [ys2 f2]. simpl in *. subst f2.
    destruct f1; [|simpl; auto|simpl; auto].
    destruct (each_child b1 rest) as [zs1 g1],
             (each_child b2 rest) as [zs2 g2].
    simpl in *. split; [assumption|]. now apply incl_app_app.
Qed.

Lemma each_child_incl_finished (b1 b2 : ModuleInfo.t -> Yielded)
    (children : list ModuleInfo.t) :
  (forall c, In c children -> snd (b2 c) = Finished ->
     snd (b1 c) = Finished /\ incl (fst (b1 c)) (fst (b2 c))) ->
  snd (each_child b2 children) = Finished ->
  snd (each_child b1 children) = Finished /\
  incl (fst (each_child b1 children)) (fst (each_child b2 children)).
Proof.
  induction children as [|c rest IH]; intros Hrel; simpl.
  - intros _. split; [reflexivity|apply incl_refl].
  - pose proof (Hrel c (or_introl eq_refl)) as Hc.
    specialize (IH (fun c' H => Hrel c' (or_intror H))).
    destruct (b1 c) as [ys1 f1], (b2 c) as [ys2 f2]. simpl in *.
    destruct f2; [|discriminate|discriminate].
    destruct (Hc eq_refl) as (-> & Hi).
    destruct (each_child b1 rest) as [zs1 g1],
             (each_child b2 rest) as [zs2 g2].
    simpl in *. intros Hg. destruct (IH Hg) as (Hg1 & Hi').
    split; [assumption|]. now apply incl_app_app.
Qed.

Lemma each_child_stable (b1 b2 : ModuleInfo.t -> Yielded)
    (children : list ModuleInfo.t) :
  (forall c, In c children -> snd (b1 c) = Finished -> b2 c = b1 c) ->
  snd (each_child b1 children) = Finished ->
  each_child b2 children = each_child b1 children.
Proof.
  induction children as [|c rest IH]; intros Hrel; simpl; [reflexivity|].
  pose proof (Hrel c (or_introl eq_refl)) as Hc.
  specialize (IH (fun c' H => Hrel c' (or_intror H))).
  destruct (b1 c) as [ys1 f1] eqn:E1. simpl in Hc.
  destruct f1; [|discriminate|discriminate].
  rewrite (Hc eq_refl).
  destruct (each_child b1 rest) as [zs1 g1]. simpl in *.
  intros Hg. now rewrite (IH Hg).
Qed.

(** Whatever the loop over the children yields lies strictly below the
    parent, if the recursive calls yield only at or below their argument. *)
Lemma children_below (recurse : string -> Yielded) (parent : string)
    (packages_only : bool) (children : list ModuleInfo.t) (x : string) :
  (forall n y, In y (fst (recurse n)) ->
     y = n \/ startswith y (n ++ ".")%string = true) ->
  In x (fst (each_child (visit_child recurse parent packages_only) children)) ->
  startswith x (parent ++ ".")%string = true.
Proof.
  intros Hrec Hin.
  apply each_child_in in Hin as (c & _ & Hx).
  unfold visit_child in Hx.
  destruct (ModuleInfo.ispkg c).
  - destruct (Hrec _ _ Hx) as [->|Hbelow].
    + apply startswith_dotted.
    + eapply startswith_trans; [exact Hbelow|].
      apply startswith_app_weaken, startswith_dotted.
  - destruct (negb packages_only); simpl in Hx; [|contradiction].
    destruct Hx as [<-|[]]. apply startswith_dotted.
Qed.

Lemma yields_at_or_below (depth : nat) (root : string)
    (ignore_tests packages_only : bool) (x : string) :
  In x (fst (_recurse_modules depth root ignore_tests packages_only)) ->
  x = root \/ startswith x (root ++ ".")%string = true.
Proof.
  revert root x.
  induction depth as [|depth IH]; intros root x Hin; [contradiction|].
  destruct (recurse_enters _ _ _ _ _ Hin)
    as (d & module_spec & o & Hd & Hfilter & Hspec & Horigin).
  injection Hd as <-.
  rewrite (recurse_unfold depth root ignore_tests packages_only
             module_spec o Hfilter Hspec Horigin) in Hin.
  cbn [fst] in Hin. apply in_app_or in Hin as [Hin|Hin].
  - left. destruct (negb _); simpl in Hin; [|contradiction].
    now destruct Hin as [<-|[]].
  - right. eapply children_below; [|exact Hin].
    intros n y. apply IH.
Qed.

End MoreEnumeratorFacts.

Section MoreEnumeratorProperties.
Context {host : Host}.

(** X16: every name the traversal yields is the root or the root followed by
    a dot and more: nothing outside the root's subtree is ever yielded. *)
Theorem yields_only_within_root (depth : nat) (root : string)
    (ignore_tests packages_only : bool) (x : string) :
  In x (fst (_recurse_modules depth root ignore_tests packages_only)) ->
  x = root \/ exists more, x = dotted root more.
Proof.
  intros Hin.
  destruct (yields_at_or_below depth root ignore_tests packages_only x Hin)
    as [->|Hbelow]; [now left|right].
  apply startswith_iff in Hbelow as (more & ->).
  exists more. unfold dotted. now rewrite append_assoc.
Qed.

(** X17: a root that passes the test filter and has a source origin is
    yielded first, unless [packages_only] is set and it is not a package;
    all that follows lies strictly below it. *)
Theorem root_is_yielded_first (depth : nat) (root : string)
    (ignore_tests packages_only : bool) (module_spec : ModuleSpec.t)
    (o : string) :
  ignore_tests && _is_test_module root = false ->
  find_spec root = inr (Some module_spec) ->
  ModuleSpec.origin module_spec = Some o ->
  packages_only = false \/ _is_package module_spec = true ->
  exists rest,
    fst (_recurse_modules (S depth) root ignore_tests packages_only) =
      root :: rest /\
    forall y, In y rest -> startswith y (root ++ ".")%string = true.
Proof.
  intros Hfilter Hspec Horigin Hown.
  rewrite (recurse_unfold depth root ignore_tests packages_only
             module_spec o Hfilter Hspec Horigin).
  cbn [fst].
  assert (negb (packages_only && negb (_is_package module_spec)) = true)
    as -> by (destruct Hown as [->| ->]; [reflexivity|];
              now rewrite andb_false_r).
  eexists. split; [reflexivity|].
  intros y Hy. eapply children_below; [|exact Hy].
  intros n z. apply yields_at_or_below.
Qed.

(** X18: [packages_only] only removes names: at the same depth the
    traversal stops at the same place with or without it, and every name
    yielded with it is yielded without it. *)
Theorem packages_only_only_removes (depth : nat) (root : string)
    (ignore_tests : bool) :
  snd (_recurse_modules depth root ignore_tests true) =
    snd (_recurse_modules depth root ignore_tests false) /\
  incl (fst (_recurse_modules depth root ignore_tests true))
       (fst (_recurse_modules depth root ignore_tests false)).
Proof.
  revert root.
  induction depth as [|depth IH]; intros root.
  - split; [reflexivity|apply incl_refl].
  - destruct (enter_cases root ignore_tests)
      as [Hstop|[(e & Hfilter & Hspec)
                |(module_spec & o & Hfilter & Hspec & Horigin)]].
    + rewrite !(recurse_nothing depth root ignore_tests _ Hstop).
      split; [reflexivity|apply incl_refl].
    + rewrite !(recurse_raises depth root ignore_tests _ e Hfilter Hspec).
      split; [reflexivity|apply incl_refl].
    + rewrite !(recurse_unfold depth root ignore_tests _
                  module_spec o Hfilter Hspec Horigin).
      cbn [fst snd].
      destruct (each_child_incl
                  (visit_child
                     (fun name => _recurse_modules depth name ignore_tests true)
                     root true)
                  (visit_child
                     (fun name => _recurse_modules depth name ignore_tests false)
                     root false)
                  (iter_modules [dirname o])) as (Hsnd & Hincl).
      { intros c _. unfold visit_child.
        destruct (ModuleInfo.ispkg c); [apply IH|].
        simpl. split; [reflexivity|apply incl_nil_l]. }
      split; [assumption|].
      apply incl_app_app; [|assumption].
      destruct (_is_package module_spec); simpl;
        [apply incl_refl|apply incl_nil_l].
Qed.

(** X19: [ignore_tests] only removes names: when the traversal without it
    runs to its end, so does the traversal with it, and every name yielded
    with it is yielded without it. *)
Theorem ignore_tests_only_removes (depth : nat) (root : string)
    (packages_only : bool) :
  snd (_recurse_modules depth root false packages_only) = Finished ->
  snd (_recurse_modules depth root true packages_only) = Finished /\
  incl (fst (_recurse_modules depth root true packages_only))
       (fst (_recurse_modules depth root false packages_only)).
Proof.
  revert root.
  induction depth as [|depth IH]; intros root; [discriminate|].
  destruct (enter_cases root true)
    as [Hstop|[(e & Hfilter & Hspec)
              |(module_spec & o & Hfilter & Hspec & Horigin)]].
  - rewrite (recurse_nothing depth root true _ Hstop).
    intros _. split; [reflexivity|apply incl_nil_l].
  - rewrite (recurse_raises depth root false packages_only e eq_refl Hspec).
    discriminate.
  - rewrite (recurse_unfold depth root true packages_only
               module_spec o Hfilter Hspec Horigin).
    rewrite (recurse_unfold depth root false packages_only
               module_spec o eq_refl Hspec Horigin).
    cbn [fst snd]. intros Hfin.
    destruct (each_child_incl_finished
                (visit_child
                   (fun name => _recurse_modules depth name true packages_only)
                   root packages_only)
                (visit_child
                   (fun name => _recurse_modules depth name false packages_only)
                   root packages_only)
                (iter_modules [dirname o])) as (Hsnd & Hincl).
    { intros c _. unfold visit_child.
      destruct (ModuleInfo.ispkg c); [apply IH|].
      intros _. split; [now destruct (negb packages_only)|apply incl_refl]. }
    { exact Hfin. }
    split; [assumption|].
    apply incl_app_app; [apply incl_refl|assumption].
Qed.

(** X20: with [ignore_tests] set, a test module is yielded only as a plain
    (non-package) child found by the directory scan of a module that is not
    itself a test module, and only when [packages_only] is unset. *)
Theorem yielded_test_module_is_plain_child (depth : nat) (root : string)
    (packages_only : bool) (x : string) :
  In x (fst (_recurse_modules depth root true packages_only)) ->
  _is_test_module x = true ->
  packages_only = false /\
  exists parent module_spec o child,
    x = dotted parent (ModuleInfo.name child) /\
    ModuleInfo.ispkg child = false /\
    _is_test_module parent = false /\
    find_spec parent = inr (Some module_spec) /\
    ModuleSpec.origin module_spec = Some o /\
    In child (iter_modules [dirname o]).
Proof.
  revert root.
  induction depth as [|depth IH]; intros root Hin; [contradiction|].
  destruct (recurse_enters _ _ _ _ _ Hin)
    as (d & module_spec & o & Hd & Hfilter & Hspec & Horigin).
  injection Hd as <-.
  rewrite (recurse_unfold depth root true packages_only
             module_spec o Hfilter Hspec Horigin) in Hin.
  cbn [fst] in Hin. simpl in Hfilter.
  intros Htest. apply in_app_or in Hin as [Hin|Hin].
  - destruct (negb _); simpl in Hin; [|contradiction].
    destruct Hin as [<-|[]]. congruence.
  - apply each_child_in in Hin as (c & Hc & Hx).
    unfold visit_child in Hx.
    destruct (ModuleInfo.ispkg c) eqn:Hpkg; [now apply (IH _ Hx)|].
    destruct packages_only; simpl in Hx; [contradiction|].
    destruct Hx as [<-|[]].
    split; [reflexivity|].
    now exists root, module_spec, o, c.
Qed.

(** X21: a module whose directory holds only plain modules yields, without
    [packages_only], itself followed by its children in the order of the
    directory scan, and with [packages_only] itself alone if it is a
    package. *)
Theorem flat_package_yields_children_in_order (depth : nat) (root : string)
    (ignore_tests : bool) (module_spec : ModuleSpec.t) (o : string) :
  ignore_tests && _is_test_module root = false ->
  find_spec root = inr (Some module_spec) ->
  ModuleSpec.origin module_spec = Some o ->
  (forall c, In c (iter_modules [dirname o]) -> ModuleInfo.ispkg c = false) ->
  _recurse_modules (S depth) root ignore_tests false =
    (root :: map (fun c => dotted root (ModuleInfo.name c))
               (iter_modules [dirname o]), Finished) /\
  _recurse_modules (S depth) root ignore_tests true =
    (if _is_package module_spec then [root] else [], Finished).
Proof.
  intros Hfilter Hspec Horigin Hplain.
  rewrite !(recurse_unfold depth root ignore_tests _
              module_spec o Hfilter Hspec Horigin).
  assert (forall po recurse,
            each_child (visit_child recurse root po)
              (iter_modules [dirname o]) =
            (if po then []
             else map (fun c => dotted root (ModuleInfo.name c))
                    (iter_modules [dirname o]), Finished)) as Hloop.
  { intros po recurse.
    induction (iter_modules [dirname o]) as [|c rest IH].
    - now destruct po.
    - simpl. unfold visit_child at 1.
      rewrite (Hplain c (or_introl eq_refl)).
      rewrite (IH (fun c' H => Hplain c' (or_intror H))).
      now destruct po. }
  rewrite !Hloop. cbn [fst snd]. split; [reflexivity|].
  destruct (_is_package module_spec); reflexivity.
Qed.

(** The depth is only a bound: a traversal that ran to its end within a depth
    gives the same names, in the same order, within every greater depth. *)
Lemma finished_traversal_is_stable (depth depth' : nat) (root : string)
    (ignore_tests packages_only : bool) :
  depth <= depth' ->
  snd (_recurse_modules depth root ignore_tests packages_only) = Finished ->
  _recurse_modules depth' root ignore_tests packages_only =
  _recurse_modules depth root ignore_tests packages_only.
Proof.
  assert (forall d n,
            snd (_recurse_modules d n ignore_tests packages_only) = Finished ->
            _recurse_modules (S d) n ignore_tests packages_only =
            _recurse_modules d n ignore_tests packages_only) as Hstep.
  { induction d as [|d IH]; intros n; [discriminate|].
    destruct (enter_cases n ignore_tests)
      as [Hstop|[(e & Hfilter & Hspec)
                |(module_spec & o & Hfilter & Hspec & Horigin)]].
    - now rewrite !(recurse_nothing _ n ignore_tests packages_only Hstop).
    - now rewrite !(recurse_raises _ n ignore_tests packages_only e
                      Hfilter Hspec).
    - rewrite !(recurse_unfold _ n ignore_tests packages_only
                  module_spec o Hfilter Hspec Horigin).
      cbn [snd]. intros Hfin.
      rewrite (each_child_stable
                 (visit_child
                    (fun name => _recurse_modules d name ignore_tests
                                   packages_only) n packages_only)
                 (visit_child
                    (fun name => _recurse_modules (S d) name ignore_tests
                                   packages_only) n packages_only)
                 (iter_modules [dirname o])); [reflexivity| |exact Hfin].
      intros c _. unfold visit_child.
      destruct (ModuleInfo.ispkg c); [apply IH|reflexivity]. }
  intros Hle Hfin. induction Hle as [|d' Hle IH]; [reflexivity|].
  rewrite <- IH. apply Hstep. now rewrite IH.
Qed.

End MoreEnumeratorProperties.

(** ** The runner *)

Section RunnerProperties.
Context {host : Host}.
Variable parse_imports : string -> exn + list ImportFrom.t.

(** For a module without a spec, or with a spec without an origin, the
    runner fails its assertion: nothing is read, parsed or visited, whatever
    the visitor is. *)
Lemma unresolved_module_fails_assertion (module : string)
    (visitor : ImportFrom.t -> M unit) (log : list event) :
  find_spec module = inr None \/
  (exists module_spec,
     find_spec module = inr (Some module_spec) /\
     ModuleSpec.origin module_spec = None) ->
  _apply_visitor parse_imports module visitor log = (inl AssertionError, log).
Proof.
  unfold _apply_visitor.
  intros [->|(module_spec & -> & ->)]; reflexivity.
Qed.

(** X23: a source-backed module that holds an import statement of relative
    level 2 or more never passes the check: the run of the checker over it
    ends with an exception. *)
Theorem module_with_ancestor_import_never_passes (module : string)
    (self : Checker) (module_spec : ModuleSpec.t) (o : string)
    (nodes : list ImportFrom.t) (node : ImportFrom.t) (log : list event) :
  find_spec module = inr (Some module_spec) ->
  ModuleSpec.origin module_spec = Some o ->
  parse_imports o = inr nodes ->
  In node nodes ->
  (2 <= ImportFrom.level node)%Z ->
  exists e,
    outcome (_apply_visitor parse_imports module (visit_ImportFrom self) log)
    = inl e.
Proof.
  intros Hspec Horigin Hparse Hin Hlevel.
  unfold _apply_visitor. rewrite Hspec, Horigin, Hparse.
  clear Hparse. revert log.
  induction nodes as [|n rest IH]; intros log; [contradiction|].
  rewrite for_each_cons.
  destruct (visit_ImportFrom self n log) as [[e|u] log'] eqn:Evisit.
  - now exists e.
  - destruct Hin as [->|Hin].
    + rewrite (visit_above_parent self node log Hlevel) in Evisit.
      discriminate.
    + now apply IH.
Qed.

End RunnerProperties.

(** ** What the full traversal yields *)

Section FullTraversal.
Context {host : Host}.

Lemma package_path_trans (root mid x : string) :
  package_path root mid -> package_path mid x -> package_path root x.
Proof.
  intros Hroot Hmid.
  induction Hmid as [|parent module_spec o child Hmid IH Hspec Horigin
                       Hchild Hpkg]; [assumption|].
  eapply path_child; eassumption.
Qed.

(** Whatever is yielded is a module that the traversal entered, or a plain
    child of one. *)
Lemma yielded_is_reachable (depth : nat) (root : string)
    (ignore_tests packages_only : bool) (x : string) :
  In x (fst (_recurse_modules depth root ignore_tests packages_only)) ->
  (package_path root x /\
   ignore_tests && _is_test_module x = false /\
   exists module_spec o,
     find_spec x = inr (Some module_spec) /\
     ModuleSpec.origin module_spec = Some o) \/
  (exists parent module_spec o child,
     package_path root parent /\
     ignore_tests && _is_test_module parent = false /\
     find_spec parent = inr (Some module_spec) /\
     ModuleSpec.origin module_spec = Some o /\
     In child (iter_modules [dirname o]) /\
     ModuleInfo.ispkg child = false /\
     packages_only = false /\
     x = dotted parent (ModuleInfo.name child)).
Proof.
  revert root.
  induction depth as [|depth IH]; intros root Hin; [contradiction|].
  destruct (recurse_enters _ _ _ _ _ Hin)
    as (d & module_spec & o & Hd & Hfilter & Hspec & Horigin).
  injection Hd as <-.
  rewrite (recurse_unfold depth root ignore_tests packages_only
             module_spec o Hfilter Hspec Horigin) in Hin.
  cbn [fst] in Hin. apply in_app_or in Hin as [Hin|Hin].
  - destruct (negb _); simpl in Hin; [|contradiction].
    destruct Hin as [<-|[]]. left.
    split; [constructor|]. split; [assumption|]. eauto.
  - apply each_child_in in Hin as (c & Hc & Hx).
    unfold visit_child in Hx.
    destruct (ModuleInfo.ispkg c) eqn:Hpkg.
    + assert (package_path root (dotted root (ModuleInfo.name c))) as Hstep
        by (eapply path_child; try eassumption; constructor).
      destruct (IH _ Hx)
        as [(Hpath & Hrest)
           |(p & s & o' & c' & Hpath & Hrest)].
      * left. split; [|exact Hrest].
        eapply package_path_trans; eassumption.
      * right. exists p, s, o', c'. split; [|exact Hrest].
        eapply package_path_trans; eassumption.
    + destruct packages_only; simpl in Hx; [contradiction|].
      destruct Hx as [<-|[]]. right.
      exists root, module_spec, o, c.
      repeat split; try assumption. constructor.
Qed.

(** X24: a traversal without [packages_only] that ran to its end has yielded
    exactly the modules with a source origin on a package-to-package path
    from the root that the test filter lets through, together with the plain
    children that the directory scan finds beside them. *)
Theorem full_traversal_yields_exactly_the_reachable (depth : nat)
    (root : string) (ignore_tests : bool) (x : string) :
  snd (_recurse_modules depth root ignore_tests false) = Finished ->
  (In x (fst (_recurse_modules depth root ignore_tests false)) <->
   (package_path root x /\
    ignore_tests && _is_test_module x = false /\
    exists module_spec o,
      find_spec x = inr (Some module_spec) /\
      ModuleSpec.origin module_spec = Some o) \/
   (exists parent module_spec o child,
      package_path root parent /\
      ignore_tests && _is_test_module parent = false /\
      find_spec parent = inr (Some module_spec) /\
      ModuleSpec.origin module_spec = Some o /\
      In child (iter_modules [dirname o]) /\
      ModuleInfo.ispkg child = false /\
      x = dotted parent (ModuleInfo.name child))).
Proof.
  intros Hfin. split.
  - intros Hin.
    destruct (yielded_is_reachable depth root ignore_tests false x Hin)
      as [H|(p & s & o & c & Hp & Ht & Hs & Ho & Hc & Hk & _ & Hx)].
    + now left.
    + right. now exists p, s, o, c.
  - intros [(Hpath & Hfilter & module_spec & o & Hspec & Horigin)
           |(p & module_spec & o & c & Hpath & Hfilter & Hspec & Horigin
             & Hc & Hplain & ->)].
    + destruct (package_path_traversed root ignore_tests false depth x
                  Hpath Hfin Hfilter) as (d & _ & Hincl).
      apply Hincl.
      rewrite (recurse_unfold d x ignore_tests false module_spec o
                 Hfilter Hspec Horigin).
      cbn [fst]. now left.
    + destruct (package_path_traversed root ignore_tests false depth p
                  Hpath Hfin Hfilter) as (d & Hd & Hincl).
      apply Hincl.
      rewrite (recurse_unfold d p ignore_tests false module_spec o
                 Hfilter Hspec Horigin) in *.
      cbn [fst snd] in *. apply in_or_app. right.
      destruct (each_child_finished _ _ Hd c Hc) as (_ & Hsub).
      apply Hsub. unfold visit_child. rewrite Hplain. now left.
Qed.

End FullTraversal.

Section OtherFailures.
Context {host : Host}.

(** X25: a failure of [import_module] on the resolved module that is not a
    [ModuleNotFoundError] is never excused: it is the outcome of the visit
    whatever the ignore-list holds, and no alias is visited. *)
Theorem other_import_failure_is_never_excused (self : Checker)
    (node : ImportFrom.t) (m : string) (e : exn) (log : list event) :
  (ImportFrom.level node < 2)%Z ->
  resolve_module_to_import self node log = (inr m, log) ->
  startswith m (_top_level_module self) = true ->
  import_module m = inl e ->
  is_ModuleNotFoundError e = false ->
  visit_ImportFrom self node log = (inl e, after_import m log).
Proof.
  intros Hlevel Hres Hscope Himp He.
  rewrite (visit_in_scope self node m log Hlevel Hres Hscope).
  now rewrite Himp, He.
Qed.

End OtherFailures.

(** ** The further properties on the concrete host *)

Module SiteExtras.
Import Site.

Lemma public_source_is_canonical_witness :
  _get_module_should_import "pkg.a" "pkg.b.x" = "pkg.b.x"%string.
Proof.
  refine (public_source_is_canonical "pkg.a" "pkg.b.x" _).
  intros c [<-|[<-|[<-|[]]]]; reflexivity.
Defined.

Lemma enclosing_source_is_canonical_witness :
  startswith "pkg.b._c.deep" "pkg.b._c" = true /\
  _get_module_should_import "pkg.b._c.deep" "pkg.b._c" = "pkg.b._c"%string.
Proof.
  split; [reflexivity|].
  exact (enclosing_source_is_canonical "pkg.b._c.deep" "pkg.b._c" eq_refl).
Defined.

Lemma test_modules_are_below_tests_witness :
  dotfree "pkg" = true /\
  _is_test_module "pkg" = false /\
  _is_test_module "pkg.tests.unit" = true.
Proof.
  split; [reflexivity|]. split.
  - exact (proj1 (test_modules_are_below_tests "pkg" eq_refl)).
  - exact (proj2 (proj2 (test_modules_are_below_tests "pkg" eq_refl)
                    "tests.unit"%string) eq_refl).
Defined.

Lemma top_level_is_first_component_witness :
  ImportFromSourceChecker "pkg.b.x" None = inr (in_pkg_b None) /\
  dotfree (_top_level_module (in_pkg_b None)) = true /\
  startswith (_module (in_pkg_b None)) (_top_level_module (in_pkg_b None))
  = true.
Proof.
  split; [reflexivity|].
  exact (top_level_is_first_component "pkg.b.x" None (in_pkg_b None) eq_refl).
Defined.

Lemma working_module_of_plain_module_witness :
  ImportFromSourceChecker "pkg.b.x" None = inr (in_pkg_b None) /\
  _module (in_pkg_b None) = "pkg.b"%string /\
  _top_level_module (in_pkg_b None) = "pkg"%string.
Proof.
  split; [reflexivity|].
  refine (working_module_of_plain_module "pkg.b" "x" None (in_pkg_b None)
            eq_refl _ eq_refl).
  intros s Hs. injection Hs as <-. reflexivity.
Defined.

Lemma relative_import_is_always_loaded_witness :
  exists r tail,
    visit_ImportFrom (in_pkg None)
      (import_from 1 (Some "b"%string) ["Klass"%string]) [] =
    (r, after_import "pkg.b" [] ++ tail).
Proof.
  refine (relative_import_is_always_loaded "pkg.a" None (in_pkg None)
            (import_from 1 (Some "b"%string) ["Klass"%string]) []
            eq_refl _ _).
  - discriminate.
  - simpl. lia.
Defined.


Lemma skipped_iff_out_of_scope_witness :
  startswith "lib.core" "pkg" = false /\
  visit_ImportFrom (in_pkg None)
    (import_from 0 (Some "lib.core"%string) ["deep"%string]) [] =
  (inr tt, []).
Proof.
  split; [reflexivity|].
  refine (proj2 (skipped_iff_out_of_scope (in_pkg None)
                   (import_from 0 (Some "lib.core"%string) ["deep"%string])
                   "lib.core" [] _ eq_refl) eq_refl).
  simpl. lia.
Defined.

Lemma warnings_iff_not_canonical_witness :
  exists ext,
    visit_ImportFrom (in_pkg None)
      (import_from 0 (Some "pkg.a"%string)
         ["helper"%string; "VERSION"%string]) [] =
    (inr tt, after_import "pkg.a" [] ++ ext) /\
    count_imports ext = 0 /\
    (no_warning ext = true <->
     forall a attr defined_in,
       In a (ImportFrom.names
               (import_from 0 (Some "pkg.a"%string)
                  ["helper"%string; "VERSION"%string])) ->
       getattr (Module_ "pkg.a") (alias.name a) = Some attr ->
       isinstance_type attr || callable attr = true ->
       __module__ attr = Some defined_in ->
       _get_module_should_import "pkg" defined_in = "pkg.a"%string).
Proof.
  refine (warnings_iff_not_canonical (in_pkg None)
            (import_from 0 (Some "pkg.a"%string)
               ["helper"%string; "VERSION"%string])
            "pkg.a" (Module_ "pkg.a") [] _ eq_refl eq_refl eq_refl _).
  - simpl. lia.
  - intros a [<-|[<-|[]]].
    + exists (Function_ "pkg.a"). split; [reflexivity|discriminate].
    + exists Constant. split; [reflexivity|discriminate].
Defined.

Lemma ignore_list_matters_only_when_not_found_witness :
  visit_ImportFrom (in_pkg (Some ["pkg"%string]))
    (import_from 0 (Some "pkg.a"%string) ["helper"%string]) [] =
  visit_ImportFrom (in_pkg None)
    (import_from 0 (Some "pkg.a"%string) ["helper"%string]) [].
Proof.
  refine (ignore_list_matters_only_when_not_found
            (in_pkg (Some ["pkg"%string])) None
            (import_from 0 (Some "pkg.a"%string) ["helper"%string])
            "pkg.a" [] eq_refl _).
  intros e He. discriminate He.
Defined.

Lemma empty_entry_ignores_every_missing_module_witness :
  import_module "pkg.missing" =
    inl (ModuleNotFoundError "No module named 'pkg.missing'") /\
  visit_ImportFrom (in_pkg (Some [""%string]))
    (import_from 0 (Some "pkg.missing"%string) ["X"%string]) [] =
  (inr tt,
   after_import "pkg.missing" [] ++
     [Printed "        Ignore missing module: pkg.missing"]).
Proof.
  split; [reflexivity|].
  refine (empty_entry_ignores_every_missing_module
            (in_pkg (Some [""%string])) [""%string]
            (import_from 0 (Some "pkg.missing"%string) ["X"%string])
            "pkg.missing"
            (ModuleNotFoundError "No module named 'pkg.missing'") []
            eq_refl (or_introl eq_refl) _ eq_refl eq_refl eq_refl eq_refl).
  simpl. lia.
Defined.

Lemma yields_only_within_root_witness :
  "pkg.b.x"%string = "pkg.b"%string \/
  exists more, "pkg.b.x"%string = dotted "pkg.b" more.
Proof.
  refine (yields_only_within_root 3 "pkg.b" false false "pkg.b.x" _).
  vm_compute. tauto.
Defined.

Lemma root_is_yielded_first_witness :
  exists rest,
    fst (_recurse_modules 3 "lib" true false) = "lib"%string :: rest /\
    forall y, In y rest -> startswith y "lib." = true.
Proof.
  exact (root_is_yielded_first 2 "lib" true false
           {| ModuleSpec.origin := Some "/site/lib/__init__.py"%string |}
           "/site/lib/__init__.py" eq_refl eq_refl eq_refl
           (or_introl eq_refl)).
Defined.

Lemma ignore_tests_only_removes_witness :
  snd (_recurse_modules 3 "lib" false false) = Finished /\
  snd (_recurse_modules 3 "lib" true false) = Finished /\
  incl (fst (_recurse_modules 3 "lib" true false))
       (fst (_recurse_modules 3 "lib" false false)).
Proof.
  split; [reflexivity|].
  exact (ignore_tests_only_removes 3 "lib" false eq_refl).
Defined.

Lemma yielded_test_module_is_plain_child_witness :
  _is_test_module "pkg.tests" = true /\
  exists parent module_spec o child,
    "pkg.tests"%string = dotted parent (ModuleInfo.name child) /\
    ModuleInfo.ispkg child = false /\
    _is_test_module parent = false /\
    find_spec parent = inr (Some module_spec) /\
    ModuleSpec.origin module_spec = Some o /\
    In child (iter_modules [dirname o]).
Proof.
  split; [reflexivity|].
  refine (proj2 (yielded_test_module_is_plain_child 3 "pkg" false
                   "pkg.tests" _ eq_refl)).
  vm_compute. tauto.
Defined.

Lemma flat_package_yields_children_in_order_witness :
  _recurse_modules 1 "pkg.b" true false =
    (["pkg.b"; "pkg.b._c"; "pkg.b.x"]%string, Finished) /\
  _recurse_modules 1 "pkg.b" true true = (["pkg.b"%string], Finished).
Proof.
  refine (flat_package_yields_children_in_order 0 "pkg.b" true
            {| ModuleSpec.origin := Some "/site/pkg/b/__init__.py"%string |}
            "/site/pkg/b/__init__.py" eq_refl eq_refl eq_refl _).
  intros c [<-|[<-|[]]]; reflexivity.
Defined.

Lemma module_with_ancestor_import_never_passes_witness :
  exists e,
    outcome (_apply_visitor SiteSources.site_parse_imports "pkg.a"
               (visit_ImportFrom (in_pkg None)) [])
    = inl e.
Proof.
  refine (module_with_ancestor_import_never_passes
            SiteSources.site_parse_imports "pkg.a" (in_pkg None)
            {| ModuleSpec.origin := Some "/site/pkg/a.py"%string |}
            "/site/pkg/a.py" _
            (import_from 2 (Some "other"%string) ["thing"%string]) []
            eq_refl eq_refl eq_refl (or_intror (or_introl eq_refl)) _).
  simpl. lia.
Defined.

Lemma full_traversal_yields_exactly_the_reachable_witness :
  snd (_recurse_modules 3 "pkg" false false) = Finished /\
  In "pkg.b.x"%string (fst (_recurse_modules 3 "pkg" false false)).
Proof.
  split; [reflexivity|].
  refine (proj2 (full_traversal_yields_exactly_the_reachable 3 "pkg" false
                   "pkg.b.x" eq_refl) _).
  right.
  exists "pkg.b"%string,
    {| ModuleSpec.origin := Some "/site/pkg/b/__init__.py"%string |},
    "/site/pkg/b/__init__.py"%string,
    {| ModuleInfo.name := "x"; ModuleInfo.ispkg := false |}.
  split.
  - exact (path_child "pkg" "pkg"
             {| ModuleSpec.origin := Some "/site/pkg/__init__.py"%string |}
             "/site/pkg/__init__.py"
             {| ModuleInfo.name := "b"; ModuleInfo.ispkg := true |}
             (path_root "pkg") eq_refl eq_refl
             (or_intror (or_introl eq_refl))
             eq_refl).
  - repeat split. simpl. tauto.
Defined.

Lemma other_import_failure_is_never_excused_witness :
  @visit_ImportFrom SiteBroken.host (in_pkg (Some ["pkg"%string]))
    (import_from 0 (Some "pkg.broken"%string) ["helper"%string]) [] =
  (inl (OtherException "ImportError" "cannot import name 'helper'"),
   after_import "pkg.broken" []).
Proof.
  refine (@other_import_failure_is_never_excused SiteBroken.host
            (in_pkg (Some ["pkg"%string]))
            (import_from 0 (Some "pkg.broken"%string) ["helper"%string])
            "pkg.broken"
            (OtherException "ImportError" "cannot import name 'helper'") []
            _ eq_refl eq_refl eq_refl eq_refl).
  simpl. lia.
Defined.

End SiteExtras.
